(** * lpais: line-by-line reassembly of multi-sentence AIS messages

  A shallow embedding of [lpais/ais.py] (functions [normalizer] /
  [normalize] and [decoder] / [decode]) together with the properties of
  the reassembly engine stated in the specification.

  Conventions of the embedding
  - a Python [str] is a [string] (code points below 256);
  - a Python [dict] is a [gmap]; the tagblock maps strings to strings;
  - the closure state of [normalizer] (the [buffers] dictionary) and the
    calls made to [handle_err] are threaded explicitly through a state
    and exception monad [M];
  - a Python [float] that is finite is the exact rational ([Q]) it stands
    for, and line 384 is computed on these exact values: the sums of that
    line are exact for the integer epoch timestamps and integer windows
    the program is fed, and only there; [nan] and the infinities have no
    value in this model, and the rounding of line 384 is shown apart, on
    binary64 values ([out_of_window_double]);
  - the functions imported from libais ([parseTagBlock],
    [isChecksumValid], [checksumStr], [ais.decode]) and the builtin
    [float] are parameters of the development. *)

From Stdlib Require Import ZArith QArith Qabs Lqa Ascii String List Bool.
From Stdlib Require Floats.
From stdpp Require Import base option list strings gmap fin_maps.

Local Open Scope string_scope.
Local Open Scope list_scope.
Local Open Scope Z_scope.

(** ** Python string primitives used by the source *)

Module Py.

(** [str.isspace] on code points below 256. *)
Definition is_space (c : ascii) : bool :=
  let n := nat_of_ascii c in
  ((9 <=? n) && (n <=? 13) || (28 <=? n) && (n <=? 32)
   || (n =? 133) || (n =? 160))%nat.

Fixpoint lstrip (s : string) : string :=
  match s with
  | String c s' => if is_space c then lstrip s' else s
  | EmptyString => EmptyString
  end.

Definition rstrip (s : string) : string := String.rev (lstrip (String.rev s)).

(** [s.strip()] *)
Definition strip (s : string) : string := rstrip (lstrip s).

(** [s.split(sep)] for a one-character separator. *)
Fixpoint split (sep : ascii) (s : string) : list string :=
  match s with
  | EmptyString => [EmptyString]
  | String c s' =>
      if Ascii.eqb c sep then EmptyString :: split sep s'
      else match split sep s' with
           | w :: ws => String c w :: ws
           | [] => [String c EmptyString]
           end
  end.

(** [sep.join(l)] *)
Definition join (sep : string) (l : list string) : string := String.concat sep l.

(** [l[i:]] and [l[i:-1]] for a non-negative [i]. *)
Definition slice_from {A} (i : nat) (l : list A) : list A := drop i l.
Definition slice_from_to_last {A} (i : nat) (l : list A) : list A :=
  drop i (take (length l - 1)%nat l).

(** [l[-1:i:-1]]: from the last element down to index [i+1]. *)
Definition rslice_down_to {A} (i : nat) (l : list A) : list A :=
  rev (drop (S i) l).

Definition digit_of (c : ascii) : option Z :=
  let n := nat_of_ascii c in
  if ((48 <=? n) && (n <=? 57))%nat then Some (Z.of_nat (n - 48)) else None.

(** digits (with single underscores between them) following a digit *)
Fixpoint int_digits (s : string) (acc : Z) : option Z :=
  match s with
  | EmptyString => Some acc
  | String c s' =>
      if Ascii.eqb c "_" then
        match s' with
        | String d s'' =>
            match digit_of d with
            | Some v => int_digits s'' (10 * acc + v)
            | None => None
            end
        | EmptyString => None
        end
      else
        match digit_of c with
        | Some v => int_digits s' (10 * acc + v)
        | None => None
        end
  end.

Definition int_unsigned (s : string) : option Z :=
  match s with
  | String d s' =>
      match digit_of d with
      | Some v => int_digits s' v
      | None => None
      end
  | EmptyString => None
  end.

(** The whitespace that [int] skips around the digits: the ASCII blanks and
    the blanks above 127, but not the separators 28 to 31 that [str.strip]
    removes. *)
Definition is_int_space (c : ascii) : bool :=
  let n := nat_of_ascii c in
  ((9 <=? n) && (n <=? 13) || (n =? 32) || (n =? 133) || (n =? 160))%nat.

Fixpoint int_lstrip (s : string) : string :=
  match s with
  | String c s' => if is_int_space c then int_lstrip s' else s
  | EmptyString => EmptyString
  end.

Definition int_strip (s : string) : string :=
  String.rev (int_lstrip (String.rev (int_lstrip s))).

(** [int(s)]: [None] stands for [ValueError]. *)
Definition int (s : string) : option Z :=
  match int_strip s with
  | String "+" r => int_unsigned r
  | String "-" r => Z.opp <$> int_unsigned r
  | t => int_unsigned t
  end.

End Py.

Definition LF : string := String (ascii_of_nat 10) EmptyString.

(** ** Data model *)

(** [newPacket]: one buffered fragment (lines 339-344). *)
Record Packet := mkPacket {
  p_payload : string;
  p_timestamp : string;
  p_tagblock : gmap string string;
  p_origline : string
}.

(** The conditions handed to [handle_err] (lines 60-170), with the keyword
    arguments each one is built with. *)
Inductive AISError :=
| InvalidChecksumError (line : string)
| InvalidChecksumInConstructedError (line : string)
| NoStationFoundError (line : string)
| TooFewFieldsError (line : string) (fields : nat)
| MissingTimestampsError (line : string) (parts : list Packet)
| DifferingTimestampsError (line : string) (timestamp : string) (parts : list Packet)
| OnlyMessageEndError (line : string) (bufferSlot : list (option string))
| DecodeError (line : string) (error_type : string) (error : string).

(** Python exceptions that the source does not catch. *)
Inductive PyExn := ValueError | KeyError | IndexError.

(** Keyword arguments of [normalizer] and [decoder] (lines 173, 244-253). *)
Record Config := mkConfig {
  validate_checksum : bool;
  allow_unknown : bool;
  window : Q;
  ignore_tagblock_station : bool;
  treat_ab_equal : bool;
  pass_invalid_checksums : bool;
  allow_missing_timestamps : bool;
  keep_nmea : bool
}.

Definition default_config : Config :=
  {| validate_checksum := true; allow_unknown := false; window := 2%Q;
     ignore_tagblock_station := false; treat_ab_equal := false;
     pass_invalid_checksums := false; allow_missing_timestamps := false;
     keep_nmea := false |}.

(** The closure state: the [buffers] dictionary of [normalizer], keyed by the
    [bufferSlot] tuple ([None] components are Python's [None]), and the
    conditions passed to [handle_err] so far, oldest first. *)
Record Engine := mkEngine {
  buffers : gmap (list (option string)) (list Packet);
  handled : list AISError
}.

Definition empty_engine : Engine := {| buffers := ∅; handled := [] |}.

(** What [normalize] returns when it returns a tuple. *)
Definition Message : Type := gmap string string * string * string.

(** Values of the record returned by [decode]. *)
Inductive pyval :=
| PStr (s : string)
| PInt (z : Z)
| PNum (q : Q)
| PBool (b : bool).

(** ** State and exception monad *)

Inductive outcome (A : Type) :=
| Return (a : A)
| Raise (e : PyExn).
Arguments Return {A} a.
Arguments Raise {A} e.

Definition M (A : Type) : Type := Engine -> Engine * outcome A.

#[global] Instance M_ret : MRet M := fun A a st => (st, Return a).

#[global] Instance M_bind : MBind M := fun A B f m st =>
  match m st with
  | (st', Return a) => f a st'
  | (st', Raise e) => (st', Raise e)
  end.

Definition raise {A} (e : PyExn) : M A := fun st => (st, Raise e).

Definition handle_err (e : AISError) : M unit := fun st =>
  ({| buffers := buffers st; handled := handled st ++ [e] |}, Return tt).

Definition or_raise {A} (e : PyExn) (o : option A) : M A :=
  match o with
  | Some a => mret a
  | None => raise e
  end.

(** [l[i]] *)
Definition index (l : list string) (i : nat) : M string := or_raise IndexError (l !! i).

(** [l[-1]] *)
Definition index_last (l : list string) : M string := or_raise IndexError (last l).

(** [buffers[slot] = l] *)
Definition buf_set (slot : list (option string)) (l : list Packet) : M unit := fun st =>
  ({| buffers := <[slot := l]> (buffers st); handled := handled st |}, Return tt).

(** [buffers[slot]] *)
Definition buf_get (slot : list (option string)) : M (list Packet) := fun st =>
  match buffers st !! slot with
  | Some l => (st, Return l)
  | None => (st, Raise KeyError)
  end.

(** [buffers[slot].append(p)] *)
Definition buf_append (slot : list (option string)) (p : Packet) : M unit :=
  l ← buf_get slot; buf_set slot (l ++ [p]).

(** [slot in buffers] *)
Definition buf_mem (slot : list (option string)) : M bool := fun st =>
  (st, Return (bool_decide (is_Some (buffers st !! slot)))).

(** [del buffers[slot]] *)
Definition buf_del (slot : list (option string)) : M unit := fun st =>
  match buffers st !! slot with
  | Some _ => ({| buffers := delete slot (buffers st); handled := handled st |}, Return tt)
  | None => (st, Raise KeyError)
  end.

(** ** The reassembly engine: [normalizer] (lines 244-423) *)

(** The state of [normalize] once the header of a multi-sentence fragment has
    been read (the local variables alive at line 345). *)
Record Fragment := mkFragment {
  f_tagblock : gmap string string;
  f_line : string;
  f_origline : string;
  f_fields : list string;
  totNumSentences : Z;
  sentenceNum : Z;
  f_payload : string;
  f_timestamp : string;
  bufferSlot : list (option string)
}.

Definition newPacket (f : Fragment) : Packet :=
  {| p_payload := f_payload f; p_timestamp := f_timestamp f;
     p_tagblock := f_tagblock f; p_origline := f_origline f |}.

(** Outcome of lines 282-344: either [normalize] has already returned, or a
    fragment of a multi-sentence message is ready for the buffers. *)
Inductive Parsed :=
| Done (r : option Message)
| Multi (f : Fragment).

(** Outcome of the sanity check (lines 364-388): [normalize] returned, or the
    loop ended with this value of [ts1]. *)
Inductive Checked :=
| Rejected
| Accepted (ts1 : option Q).

(** [len(fld) and fld[0] in ("r", "b")] *)
Definition is_station (fld : string) : bool :=
  match fld with
  | String c _ => Ascii.eqb c "r" || Ascii.eqb c "b"
  | EmptyString => false
  end.

(** [line[3:6] not in ("VDM", "VDO")], for a line of at least 7 characters *)
Definition not_vdm_vdo (line : string) : bool :=
  let code := substring 3 3 line in
  negb (String.eqb code "VDM" || String.eqb code "VDO").

(** [d.update(m)] *)
Definition dict_update {V} (d m : gmap string V) : gmap string V := m ∪ d.

(** Lines 391-393: [tagblock = {}; for p in reversed(parts): tagblock.update(p["tagblock"])]. *)
Definition merge_tagblocks (parts : list Packet) : gmap string string :=
  foldl (fun acc p => dict_update acc (p_tagblock p)) ∅ (rev parts).

(** [ts1 == 0], where [ts1] may still be [None] *)
Definition is_zero (ts1 : option Q) : bool :=
  match ts1 with
  | Some q => Qeq_bool q 0
  | None => false
  end.

Definition Qlt_b (x y : Q) : bool := negb (Qle_bool y x).

Section Normalizer.

Context (parseTagBlock : string -> gmap string string * string)
        (isChecksumValid : string -> bool)
        (checksumStr : string -> string)
        (pyfloat : string -> option Q)
        (cfg : Config).

(** Lines 313-317: the last trailing field (index 6 or more) that starts
    with [r] or [b]. *)
Definition find_station (fields : list string) : option string :=
  find is_station (Py.rslice_down_to 5 fields).

(** Lines 282-344. *)
Definition parse_line (origline : string) : M Parsed :=
  let '(tagblock, line) := parseTagBlock origline in
  let line := Py.strip line +:+ LF in
  if (String.length line <? 7)%nat || not_vdm_vdo line then
    mret (Done (Some (tagblock, line, origline)))
  else
    proceed ← (if validate_checksum cfg && negb (isChecksumValid line) then
                 handle_err (InvalidChecksumError (Py.strip line));;
                 mret (pass_invalid_checksums cfg)
               else mret true);
    if negb proceed then mret (Done None) else
    let fields := Py.split "," line in
    if (length fields <? 6)%nat then
      handle_err (TooFewFieldsError (Py.strip line) (length fields));;
      mret (Done None)
    else
      f1 ← index fields 1;
      totNumSentences ← or_raise ValueError (Py.int f1);
      if 1 =? totNumSentences then mret (Done (Some (tagblock, line, origline))) else
      f2 ← index fields 2;
      sentenceNum ← or_raise ValueError (Py.int f2);
      payload ← index fields 5;
      lastfld ← index_last fields;
      let timestamp := Py.strip lastfld in
      let station := find_station fields in
      let tagblock_station :=
        if ignore_tagblock_station cfg then None
        else tagblock !! "tagblock_station" in
      let station :=
        match station with
        | None => if allow_unknown cfg then Some "UNKNOWN" else None
        | Some s => Some s
        end in
      if bool_decide (station = None ∧ tagblock_station = None) then
        handle_err (NoStationFoundError (Py.strip line));;
        mret (Done None)
      else
        f3 ← index fields 3;
        f4 ← index fields 4;
        let bufferSlot :=
          [tagblock_station; station; Some f3]
          ++ (if treat_ab_equal cfg then [] else [Some f4]) in
        mret (Multi {| f_tagblock := tagblock; f_line := line;
                       f_origline := origline; f_fields := fields;
                       totNumSentences := totNumSentences;
                       sentenceNum := sentenceNum; f_payload := payload;
                       f_timestamp := timestamp; bufferSlot := bufferSlot |}).

(** Lines 366-382: the pair [(ts1, ts2)] for one part, [None] when line 382
    returns. *)
Definition timestamp_pair (f : Fragment) (part : Packet) : option (Q * Q) :=
  match pyfloat (p_timestamp part), pyfloat (f_timestamp f) with
  | Some ts1, Some ts2 => Some (ts1, ts2)
  | _, _ =>
      match p_tagblock part !! "tagblock_timestamp" ≫= pyfloat,
            f_tagblock f !! "tagblock_timestamp" ≫= pyfloat with
      | Some ts1, Some ts2 => Some (ts1, ts2)
      | _, _ => if allow_missing_timestamps cfg then Some (0%Q, 0%Q) else None
      end
  end.

(** Line 384: [ts1 > ts2 + window or ts1 < ts2 - window]. *)
Definition out_of_window (ts1 ts2 : Q) : bool :=
  Qlt_b (ts2 + window cfg) ts1 || Qlt_b ts1 (ts2 - window cfg).

(** Lines 364-388: the loop over [parts]; [todo] is what is left of it. *)
Fixpoint sanity_check (f : Fragment) (parts todo : list Packet) (ts1 : option Q)
  : M Checked :=
  match todo with
  | [] => mret (Accepted ts1)
  | part :: rest =>
      match timestamp_pair f part with
      | None =>
          handle_err (MissingTimestampsError (Py.strip (f_line f)) parts);;
          mret Rejected
      | Some (t1, t2) =>
          if out_of_window t1 t2 then
            handle_err (DifferingTimestampsError (Py.strip (f_line f)) (f_timestamp f) parts);;
            mret Rejected
          else sanity_check f parts rest (Some t1)
      end
  end.

(** Lines 397-404. *)
Definition checksumed_str (f0 f3 f4 payload f6 : string) : string :=
  Py.join "," [f0; "1,1"; f3; f4; payload; hd "" (Py.split "*" f6) +:+ "*"].

(** Lines 406-413. *)
Definition out_str (fields : list string) (cs : string) (ts1 : option Q) : string :=
  if is_zero ts1 then
    let out := cs +:+ checksumStr cs in
    if (0 <? length (Py.slice_from_to_last 7 fields))%nat then
      out +:+ "," +:+ Py.join "," (Py.slice_from_to_last 7 fields)
    else out
  else
    cs +:+ checksumStr cs +:+ "," +:+ Py.join "," (Py.slice_from 7 fields).

(** Lines 390-421. *)
Definition synthesize (f : Fragment) (parts : list Packet) (ts1 : option Q)
  : M (option Message) :=
  let fields := f_fields f in
  let payload := Py.join "" (p_payload <$> parts) in
  let tagblock := merge_tagblocks parts in
  f0 ← index fields 0;
  f3 ← index fields 3;
  f4 ← index fields 4;
  f6 ← index fields 6;
  let out := out_str fields (checksumed_str f0 f3 f4 payload f6) ts1 in
  (if negb (isChecksumValid out) then
     handle_err (InvalidChecksumInConstructedError (Py.strip (f_line f)))
   else mret tt);;
  let out := Py.strip out +:+ LF in
  let origstr := Py.join "" (p_origline <$> parts) in
  mret (Some (tagblock, out, origstr)).

(** Lines 363-421: what is done with the complete list of parts. *)
Definition finish (f : Fragment) (parts : list Packet) : M (option Message) :=
  chk ← sanity_check f parts parts None;
  match chk with
  | Rejected => mret None
  | Accepted ts1 => synthesize f parts ts1
  end.

(** Lines 346-421. *)
Definition reassemble (f : Fragment) : M (option Message) :=
  if sentenceNum f =? 1 then
    buf_set (bufferSlot f) [newPacket f];;
    mret None
  else if sentenceNum f <? totNumSentences f then
    buf_append (bufferSlot f) (newPacket f);;
    mret None
  else
    known ← buf_mem (bufferSlot f);
    if negb known then
      handle_err (OnlyMessageEndError (f_line f) (bufferSlot f));;
      mret None
    else
      buf_append (bufferSlot f) (newPacket f);;
      parts ← buf_get (bufferSlot f);
      buf_del (bufferSlot f);;
      finish f parts.

(** [normalize] (lines 276-421). *)
Definition normalize (origline : string) : M (option Message) :=
  p ← parse_line origline;
  match p with
  | Done r => mret r
  | Multi f => reassemble f
  end.

End Normalizer.

(** ** The decode adapter: [decoder] (lines 173-241) *)

(** [s[-1]], as a one-character string *)
Fixpoint last_char (s : string) : option string :=
  match s with
  | EmptyString => None
  | String c EmptyString => Some (String c EmptyString)
  | String _ s' => last_char s'
  end.

(** Lines 236-239: [res.update(tagblock)], then the ["nmea"] key when
    [keep_nmea] is set. *)
Definition build_record (keep : bool) (res : gmap string pyval)
    (tagblock : gmap string string) (origline : string) : gmap string pyval :=
  let res := dict_update res (PStr <$> tagblock) in
  if keep then <["nmea" := PStr origline]> res else res.

Section Decoder.

Context (parseTagBlock : string -> gmap string string * string)
        (isChecksumValid : string -> bool)
        (checksumStr : string -> string)
        (pyfloat : string -> option Q)
        (decode_ais : string -> Z -> (string * string) + gmap string pyval)
        (cfg : Config).

(** [decode] (lines 217-239).  [decode_ais] answers [inl (type, message)]
    when [ais.decode] raises.  ["".join(s)] of a string [s] is [s]. *)
Definition decode (line : string) : M (option (gmap string pyval)) :=
  data ← normalize parseTagBlock isChecksumValid checksumStr pyfloat cfg line;
  match data with
  | None => mret None
  | Some (tagblock, line, origline) =>
      body ← index (Py.split "," line) 5;
      padc ← or_raise IndexError (last_char (hd "" (Py.split "*" line)));
      pad ← or_raise ValueError (Py.int padc);
      match decode_ais body pad with
      | inl (error_type, error) =>
          handle_err (DecodeError (Py.strip origline) error_type error);;
          mret None
      | inr res => mret (Some (build_record (keep_nmea cfg) res tagblock origline))
      end
  end.

End Decoder.

(** ** The leaf components, from the specification *)

Module Codec.

(** Running exclusive-or of the bytes of [s]. *)
Fixpoint xor_bytes (s : string) : N :=
  match s with
  | EmptyString => 0%N
  | String c s' => N.lxor (N_of_ascii c) (xor_bytes s')
  end.

Definition hex_digit (n : N) : ascii :=
  if (n <? 10)%N then ascii_of_N (48 + n) else ascii_of_N (55 + n).

(** The exclusive-or of the bytes of [body] as two uppercase hex digits. *)
Definition hex_xor (body : string) : string :=
  let x := xor_bytes body in
  String (hex_digit (x / 16)) (String (hex_digit (x mod 16)) EmptyString).

(** upper-casing of the letters a-f, for the case-insensitive comparison *)
Definition upper_hex (c : ascii) : ascii :=
  let n := N_of_ascii c in
  if ((97 <=? n) && (n <=? 102))%N then ascii_of_N (n - 32) else c.

(** [Some (before, after)] around the first occurrence of [sep]. *)
Fixpoint cut (sep : ascii) (s : string) : option (string * string) :=
  match s with
  | EmptyString => None
  | String c s' =>
      if Ascii.eqb c sep then Some (EmptyString, s')
      else match cut sep s' with
           | Some (a, b) => Some (String c a, b)
           | None => None
           end
  end.

(** A tagblock prefix runs from a leading backslash to the closing one. *)
Definition strip_tagblock (s : string) : string :=
  match s with
  | String "\" s' =>
      match cut "\" s' with
      | Some (_, rest) => rest
      | None => s
      end
  | _ => s
  end.

Definition strip_sentinel (s : string) : string :=
  match s with
  | String "!" s' => s'
  | String "$" s' => s'
  | _ => s
  end.

(** Modelled from the spec: [isChecksumValid] of libais is not under src/;
    section 4.1 says [validate(sentence)] computes the exclusive-or of every
    byte between the leading sentinel (after stripping any tagblock and the
    leading [!] or [$]) and the [*] delimiter, compares the two-hex-digit
    result, case-insensitively, against the digits following [*], and
    returns false on a malformed trailer. *)
Definition validate (sentence : string) : bool :=
  match cut "*" (strip_sentinel (strip_tagblock sentence)) with
  | Some (body, String d1 (String d2 _)) =>
      String.eqb (String (upper_hex d1) (String (upper_hex d2) EmptyString))
                 (hex_xor body)
  | _ => false
  end.

(** Modelled from the spec: [parseTagBlock] of libais is not under src/;
    section 4.2 says [parse(raw_line)] extracts the comma-separated
    [key:value] pairs of a leading tagblock into a mapping and returns the
    rest of the line; without a tagblock prefix, an empty mapping and the
    line unchanged.  It is run here on sentences without a tagblock only. *)
Definition parse (raw_line : string) : gmap string string * string :=
  match raw_line with
  | String "\" s' =>
      match cut "\" s' with
      | Some (block, rest) =>
          (foldl (fun acc item =>
                    match cut ":" item with
                    | Some (k, v) => <[k := v]> acc
                    | None => acc
                    end) ∅ (Py.split "," block), rest)
      | None => (∅, raw_line)
      end
  | _ => (∅, raw_line)
  end.

(** Modelled from the spec: [checksumStr] of libais is not under src/;
    section 4.1 says [compute] returns the two-hex-digit uppercase checksum
    string (no [*]) of the body text with the checksum sentinel removed.
    Line 408 calls it on the sentence with its leading sentinel and with the
    [*] already appended: both are left out of the exclusive-or. *)
Definition checksumStr (data : string) : string :=
  match cut "*" (strip_sentinel data) with
  | Some (body, _) => hex_xor body
  | None => hex_xor (strip_sentinel data)
  end.

(** Python's [float] on integer literals (the timestamps of the sample
    sentences); any other text is taken as not numeric. *)
Definition float_int (s : string) : option Q := inject_Z <$> Py.int s.

End Codec.

(** ** Auxiliary notions for the statements *)

(** The engine [st] with [news] handed to [handle_err] after what it already
    holds, and with its buffers replaced by [b]. *)
Definition with_buffers (b : gmap (list (option string)) (list Packet)) (st : Engine) : Engine :=
  {| buffers := b; handled := handled st |}.

Definition with_handled (news : list AISError) (st : Engine) : Engine :=
  {| buffers := buffers st; handled := handled st ++ news |}.

(** The instance of the engine and of the adapter on the leaf components of
    the specification. *)
Definition normalize_ref (cfg : Config) : string -> M (option Message) :=
  normalize Codec.parse Codec.validate Codec.checksumStr Codec.float_int cfg.

Definition decode_ref (decode_ais : string -> Z -> (string * string) + gmap string pyval)
    (cfg : Config) : string -> M (option (gmap string pyval)) :=
  decode Codec.parse Codec.validate Codec.checksumStr Codec.float_int decode_ais cfg.

(** Feeding lines one after the other, collecting what each call gives. *)
Fixpoint feed {A} (step : string -> M A) (lines : list string) (st : Engine)
  : Engine * list (outcome A) :=
  match lines with
  | [] => (st, [])
  | l :: ls =>
      let '(st', o) := step l st in
      let '(st'', os) := feed step ls st' in
      (st'', o :: os)
  end.

(** The merge as the design notes word it: parts in arrival order, a key
    already present is never overwritten. *)
Definition merge_first_wins (parts : list Packet) : gmap string string :=
  foldl (fun acc p => acc ∪ p_tagblock p) ∅ parts.

(** ** Sample sentences

    Two-sentence messages of station [rX], sequence 6, channel A: a first
    sentence that is never completed, then a complete pair whose timestamps
    differ by the default window. *)

Definition line_a1 : string := "!AIVDM,2,1,6,A,AAA,0*52,rX,100" +:+ LF.
Definition line_b1 : string := "!AIVDM,2,1,6,A,CCC,0*50,rX,100" +:+ LF.
Definition line_b2 : string := "!AIVDM,2,2,6,A,BBB,2*50,rX,102" +:+ LF.
Definition line_b2_late : string := "!AIVDM,2,2,6,A,BBB,2*50,rX,103" +:+ LF.

Definition sample_fragment (line : string) (num : Z) (fields : list string)
    (payload timestamp : string) : Fragment :=
  {| f_tagblock := ∅; f_line := line; f_origline := line; f_fields := fields;
     totNumSentences := 2; sentenceNum := num; f_payload := payload;
     f_timestamp := timestamp;
     bufferSlot := [None; Some "rX"; Some "6"; Some "A"] |}.

Definition frag_a1 : Fragment :=
  sample_fragment line_a1 1
    ["!AIVDM"; "2"; "1"; "6"; "A"; "AAA"; "0*52"; "rX"; "100" +:+ LF] "AAA" "100".
Definition frag_b1 : Fragment :=
  sample_fragment line_b1 1
    ["!AIVDM"; "2"; "1"; "6"; "A"; "CCC"; "0*50"; "rX"; "100" +:+ LF] "CCC" "100".
Definition frag_b2 : Fragment :=
  sample_fragment line_b2 2
    ["!AIVDM"; "2"; "2"; "6"; "A"; "BBB"; "2*50"; "rX"; "102" +:+ LF] "BBB" "102".
Definition frag_b2_late : Fragment :=
  sample_fragment line_b2_late 2
    ["!AIVDM"; "2"; "2"; "6"; "A"; "BBB"; "2*50"; "rX"; "103" +:+ LF] "BBB" "103".

(** A sentence whose total-fragment-count field is not a number, a middle
    fragment, a single sentence with a wrong checksum, a complete pair
    stamped at epoch 0, and a single sentence behind a tagblock. *)

Definition line_bad_count : string := "!AIVDM,X,1,6,A,BBB,0*3B,rX,0" +:+ LF.
Definition line_middle : string := "!AIVDM,3,2,6,A,BBB,0*53,rX,0" +:+ LF.
Definition line_bad_checksum : string := "!AIVDM,1,1,,A,P,0*00" +:+ LF.
Definition line_single : string := "!AIVDM,1,1,,A,P,0*76" +:+ LF.
Definition line_z1 : string := "!AIVDM,2,1,6,A,AAA,0*52,rX,0" +:+ LF.
Definition line_z2 : string := "!AIVDM,2,2,6,A,BBB,2*50,rX,0" +:+ LF.
Definition line_tagged : string := "\s:rX\!AIVDM,1,1,,A,P,0*76" +:+ LF.
Definition config_pass_invalid : Config :=
  {| validate_checksum := true; allow_unknown := false; window := 2%Q;
     ignore_tagblock_station := false; treat_ab_equal := false;
     pass_invalid_checksums := true; allow_missing_timestamps := false;
     keep_nmea := false |}.


(** Stand-ins for [ais.decode]: one that always fails, two that answer a
    fixed record, the second with a key that the tagblock also has. *)
Definition decoder_failing (body : string) (pad : Z)
  : (string * string) + gmap string pyval :=
  inl ("DecodeError", "Ais7_13: AIS_ERR_BAD_BIT_COUNT").

Definition decoder_station (body : string) (pad : Z)
  : (string * string) + gmap string pyval :=
  inr {[ "id" := PInt 1; "s" := PInt 9 ]}.



(** The engine holding the first sentence of the second sample message. *)
Definition engine_b1 : Engine :=
  {| buffers := {[ bufferSlot frag_b1 := [newPacket frag_b1] ]}; handled := [] |}.

(** Further samples: a first sentence on channel B, a pair without
    trailing station and timestamp, a pair cut after the payload field, and
    the options they need. *)

Definition line_c1 : string := "!AIVDM,2,1,6,B,DDD,0*54,rX,100" +:+ LF.
Definition line_u1 : string := "!AIVDM,2,1,6,A,AAA,0*52" +:+ LF.
Definition line_u2 : string := "!AIVDM,2,2,6,A,BBB,2*50" +:+ LF.
Definition line_s1 : string := "!AIVDM,2,1,6,A,AAA" +:+ LF.
Definition line_s2 : string := "!AIVDM,2,2,6,A,BBB" +:+ LF.

Definition frag_c1 : Fragment :=
  {| f_tagblock := ∅; f_line := line_c1; f_origline := line_c1;
     f_fields := ["!AIVDM"; "2"; "1"; "6"; "B"; "DDD"; "0*54"; "rX"; "100" +:+ LF];
     totNumSentences := 2; sentenceNum := 1; f_payload := "DDD";
     f_timestamp := "100";
     bufferSlot := [None; Some "rX"; Some "6"; Some "B"] |}.

Definition frag_z2 : Fragment :=
  sample_fragment line_z2 2
    ["!AIVDM"; "2"; "2"; "6"; "A"; "BBB"; "2*50"; "rX"; "0" +:+ LF] "BBB" "0".

Definition unknown_fragment (line : string) (num : Z) (fields : list string)
    (payload timestamp : string) : Fragment :=
  {| f_tagblock := ∅; f_line := line; f_origline := line; f_fields := fields;
     totNumSentences := 2; sentenceNum := num; f_payload := payload;
     f_timestamp := timestamp;
     bufferSlot := [None; Some "UNKNOWN"; Some "6"; Some "A"] |}.

Definition frag_u1 : Fragment :=
  unknown_fragment line_u1 1
    ["!AIVDM"; "2"; "1"; "6"; "A"; "AAA"; "0*52" +:+ LF] "AAA" "0*52".
Definition frag_u2 : Fragment :=
  unknown_fragment line_u2 2
    ["!AIVDM"; "2"; "2"; "6"; "A"; "BBB"; "2*50" +:+ LF] "BBB" "2*50".

Definition engine_u1 : Engine :=
  {| buffers := {[ bufferSlot frag_u1 := [newPacket frag_u1] ]}; handled := [] |}.

Definition config_unknown : Config :=
  {| validate_checksum := true; allow_unknown := true; window := 2%Q;
     ignore_tagblock_station := false; treat_ab_equal := false;
     pass_invalid_checksums := false; allow_missing_timestamps := false;
     keep_nmea := false |}.

Definition config_lenient : Config :=
  {| validate_checksum := false; allow_unknown := true; window := 2%Q;
     ignore_tagblock_station := false; treat_ab_equal := false;
     pass_invalid_checksums := false; allow_missing_timestamps := true;
     keep_nmea := false |}.

(** ** Line 384 in double precision *)





(** ** Notions for the further properties *)

(** A computation that hands at most [n] conditions to the handler, after
    those already handled, and one that leaves the buffers as they are. *)
Definition logs {A} (n : nat) (m : M A) : Prop :=
  forall st, exists news,
    handled (m st).1 = handled st ++ news /\ (length news <= n)%nat.

Definition keeps_buffers {A} (m : M A) : Prop :=
  forall st, buffers (m st).1 = buffers st.

(** A slot whose tagblock station or trailing station is known (the test of
    line 327 did not fire). *)
Definition names_station (slot : list (option string)) : Prop :=
  match slot with
  | tagblock_station :: station :: _ => tagblock_station <> None \/ station <> None
  | _ => False
  end.

(** No buffer is empty; every slot in use names a station. *)
Definition buffers_ok (st : Engine) : Prop :=
  forall slot parts, buffers st !! slot = Some parts ->
                     parts <> [] /\ names_station slot.

(** The five ways through lines 346-361, with what each one leaves. *)
Inductive reassemble_case (isChecksumValid : string -> bool)
    (checksumStr : string -> string) (pyfloat : string -> option Q)
    (cfg : Config) (f : Fragment) (st : Engine)
  : Engine * outcome (option Message) -> Prop :=
| case_first :
    sentenceNum f = 1 ->
    reassemble_case isChecksumValid checksumStr pyfloat cfg f st
      (with_buffers (<[bufferSlot f := [newPacket f]]> (buffers st)) st, Return None)
| case_middle_known prev :
    sentenceNum f <> 1 -> sentenceNum f < totNumSentences f ->
    buffers st !! bufferSlot f = Some prev ->
    reassemble_case isChecksumValid checksumStr pyfloat cfg f st
      (with_buffers (<[bufferSlot f := prev ++ [newPacket f]]> (buffers st)) st,
       Return None)
| case_middle_unknown :
    sentenceNum f <> 1 -> sentenceNum f < totNumSentences f ->
    buffers st !! bufferSlot f = None ->
    reassemble_case isChecksumValid checksumStr pyfloat cfg f st (st, Raise KeyError)
| case_final_unknown :
    sentenceNum f <> 1 -> ~ sentenceNum f < totNumSentences f ->
    buffers st !! bufferSlot f = None ->
    reassemble_case isChecksumValid checksumStr pyfloat cfg f st
      (with_handled [OnlyMessageEndError (f_line f) (bufferSlot f)] st, Return None)
| case_final_known prev :
    sentenceNum f <> 1 -> ~ sentenceNum f < totNumSentences f ->
    buffers st !! bufferSlot f = Some prev ->
    reassemble_case isChecksumValid checksumStr pyfloat cfg f st
      (finish isChecksumValid checksumStr pyfloat cfg f (prev ++ [newPacket f])
         (with_buffers (delete (bufferSlot f) (buffers st)) st)).

(** * Properties *)

(** ** Tagblock merge *)

Lemma merge_tagblocks_cons (p : Packet) (parts : list Packet) :
  merge_tagblocks (p :: parts) = p_tagblock p ∪ merge_tagblocks parts.
Proof.
  unfold merge_tagblocks. simpl. rewrite foldl_app. reflexivity.
Qed.

Lemma merge_tagblocks_lookup (parts : list Packet) (k : string) :
  merge_tagblocks parts !! k = head (omap (fun p => p_tagblock p !! k) parts).
Proof.
  induction parts as [|p parts IH].
  - unfold merge_tagblocks. simpl. apply lookup_empty.
  - rewrite merge_tagblocks_cons, lookup_union, IH. simpl.
    destruct (p_tagblock p !! k) as [v|] eqn:E; simpl.
    + destruct (head _); reflexivity.
    + destruct (head _); reflexivity.
Qed.

Lemma merge_first_wins_from (acc : gmap string string) (parts : list Packet) :
  foldl (fun acc p => acc ∪ p_tagblock p) acc parts = acc ∪ merge_tagblocks parts.
Proof.
  revert acc. induction parts as [|p parts IH]; intros acc; simpl.
  - unfold merge_tagblocks. simpl. by rewrite (right_id ∅ (∪)).
  - rewrite IH, merge_tagblocks_cons. by rewrite (assoc (∪)).
Qed.

(** The reversed overwrites of the source and the in-order, never-overwrite
    merge of the design notes build the same mapping. *)
Lemma merge_tagblocks_refines (parts : list Packet) :
  merge_tagblocks parts = merge_first_wins parts.
Proof.
  unfold merge_first_wins. rewrite merge_first_wins_from.
  by rewrite (left_id ∅ (∪)).
Qed.

(** C3: in the merged tagblock, a key carries the value given by the
    earliest-arrived part that defines it, whatever later parts say. *)
Theorem merge_tagblocks_first_part_wins (parts : list Packet) (k : string)
    (i : nat) (p : Packet) (v : string) :
  parts !! i = Some p ->
  p_tagblock p !! k = Some v ->
  (forall j q, (j < i)%nat -> parts !! j = Some q -> p_tagblock q !! k = None) ->
  merge_tagblocks parts !! k = Some v.
Proof.
  revert i. induction parts as [|q parts IH]; intros i Hi Hv Hfirst.
  - discriminate.
  - rewrite merge_tagblocks_cons, lookup_union.
    destruct i as [|i]; simpl in Hi.
    + inversion Hi; subst q. rewrite Hv.
      destruct (merge_tagblocks parts !! k); reflexivity.
    + rewrite (Hfirst 0%nat q ltac:(lia) eq_refl).
      rewrite (IH i Hi Hv).
      * reflexivity.
      * intros j r Hj Hr. apply (Hfirst (S j) r); [lia | exact Hr].
Qed.

Lemma merge_tagblocks_first_part_wins_witness :
  merge_tagblocks
    [mkPacket "A" "1" {["c" := "5"]} "l1";
     mkPacket "B" "1" {["s" := "first"]} "l2";
     mkPacket "C" "1" {["s" := "second"; "c" := "7"]} "l3"] !! "s" = Some "first".
Proof.
  apply (merge_tagblocks_first_part_wins _ "s" 1%nat
           (mkPacket "B" "1" {["s" := "first"]} "l2") "first").
  - reflexivity.
  - reflexivity.
  - intros j q Hj Hq. destruct j as [|j]; [|lia].
    inversion Hq. reflexivity.
Defined.

(** ** The buffer protocol of [reassemble] *)

Ltac unfold_m :=
  repeat progress
    (unfold mbind, M_bind, mret, M_ret, raise, handle_err,
       buf_append, buf_get, buf_set, buf_del, buf_mem; cbn beta).

Section ReassembleFacts.

Context (isChecksumValid : string -> bool)
        (checksumStr : string -> string)
        (pyfloat : string -> option Q)
        (cfg : Config).

Local Abbreviation reassemble := (reassemble isChecksumValid checksumStr pyfloat cfg).
Local Abbreviation finish := (finish isChecksumValid checksumStr pyfloat cfg).
Local Abbreviation synthesize := (synthesize isChecksumValid checksumStr).
Local Abbreviation sanity_check := (sanity_check pyfloat cfg).

Lemma reassemble_first f st :
  sentenceNum f = 1 ->
  reassemble f st
  = (with_buffers (<[bufferSlot f := [newPacket f]]> (buffers st)) st, Return None).
Proof.
  intros H. unfold reassemble. rewrite H. reflexivity.
Qed.

Lemma reassemble_middle_unknown f st :
  sentenceNum f <> 1 -> sentenceNum f < totNumSentences f ->
  buffers st !! bufferSlot f = None ->
  reassemble f st = (st, Raise KeyError).
Proof.
  intros H1 H2 H3. unfold reassemble.
  destruct (Z.eqb_spec (sentenceNum f) 1) as [|_]; [done|].
  destruct (Z.ltb_spec (sentenceNum f) (totNumSentences f)) as [_|]; [|lia].
  unfold_m. rewrite H3. reflexivity.
Qed.

Lemma reassemble_middle_known f st prev :
  sentenceNum f <> 1 -> sentenceNum f < totNumSentences f ->
  buffers st !! bufferSlot f = Some prev ->
  reassemble f st
  = (with_buffers (<[bufferSlot f := prev ++ [newPacket f]]> (buffers st)) st, Return None).
Proof.
  intros H1 H2 H3. unfold reassemble.
  destruct (Z.eqb_spec (sentenceNum f) 1) as [|_]; [done|].
  destruct (Z.ltb_spec (sentenceNum f) (totNumSentences f)) as [_|]; [|lia].
  unfold_m. rewrite H3. reflexivity.
Qed.

Lemma reassemble_final_unknown f st :
  sentenceNum f <> 1 -> ~ sentenceNum f < totNumSentences f ->
  buffers st !! bufferSlot f = None ->
  reassemble f st
  = (with_handled [OnlyMessageEndError (f_line f) (bufferSlot f)] st, Return None).
Proof.
  intros H1 H2 H3. unfold reassemble.
  destruct (Z.eqb_spec (sentenceNum f) 1) as [|_]; [done|].
  destruct (Z.ltb_spec (sentenceNum f) (totNumSentences f)) as [|_]; [lia|].
  unfold_m. rewrite H3.
  rewrite bool_decide_eq_false_2 by (intros [? ?]; discriminate).
  reflexivity.
Qed.

Lemma reassemble_final_known f st prev :
  sentenceNum f <> 1 -> ~ sentenceNum f < totNumSentences f ->
  buffers st !! bufferSlot f = Some prev ->
  reassemble f st
  = finish f (prev ++ [newPacket f])
      (with_buffers (delete (bufferSlot f) (buffers st)) st).
Proof.
  intros H1 H2 H3. unfold reassemble.
  destruct (Z.eqb_spec (sentenceNum f) 1) as [|_]; [done|].
  destruct (Z.ltb_spec (sentenceNum f) (totNumSentences f)) as [|_]; [lia|].
  unfold_m. rewrite H3.
  rewrite bool_decide_eq_true_2 by eauto. cbn.
  rewrite H3. cbn. rewrite lookup_insert_eq. cbn. rewrite lookup_insert_eq.
  rewrite delete_insert_eq. reflexivity.
Qed.

(** ** The timestamp window *)

Lemma Qlt_b_iff (x y : Q) : Qlt_b x y = true <-> (x < y)%Q.
Proof.
  unfold Qlt_b. rewrite negb_true_iff, <- not_true_iff_false, Qle_bool_iff.
  split; [apply Qnot_le_lt | apply Qlt_not_le].
Qed.

Lemma out_of_window_iff (t1 t2 : Q) :
  out_of_window cfg t1 t2 = true <-> (window cfg < Qabs (t1 - t2))%Q.
Proof.
  unfold out_of_window. rewrite orb_true_iff, !Qlt_b_iff. split.
  - intros H. apply Qnot_le_lt. rewrite Qabs_Qle_condition.
    intros [Ha Hb]. destruct H as [H|H]; lra.
  - intros H.
    destruct (Qlt_le_dec (t2 + window cfg) t1) as [|Ha]; [by left|].
    destruct (Qlt_le_dec t1 (t2 - window cfg)) as [|Hb]; [by right|].
    exfalso. apply (Qlt_not_le _ _ H). rewrite Qabs_Qle_condition. split; lra.
Qed.

Lemma in_window_iff (t1 t2 : Q) :
  out_of_window cfg t1 t2 = false <-> (Qabs (t1 - t2) <= window cfg)%Q.
Proof.
  rewrite <- not_true_iff_false, out_of_window_iff. split.
  - apply Qnot_lt_le.
  - apply Qle_not_lt.
Qed.

Lemma timestamp_pair_numeric f part t1 t2 :
  pyfloat (p_timestamp part) = Some t1 ->
  pyfloat (f_timestamp f) = Some t2 ->
  timestamp_pair pyfloat cfg f part = Some (t1, t2).
Proof. intros H1 H2. unfold timestamp_pair. rewrite H1, H2. reflexivity. Qed.

Lemma sanity_check_accept f parts todo ts ts2 t0 st :
  pyfloat (f_timestamp f) = Some ts2 ->
  Forall2 (fun p t => pyfloat (p_timestamp p) = Some t) todo ts ->
  Forall (fun t => (Qabs (t - ts2) <= window cfg)%Q) ts ->
  sanity_check f parts todo t0 st
  = (st, Return (Accepted (match last ts with Some t => Some t | None => t0 end))).
Proof.
  intros H2 Hnum. revert t0. induction Hnum as [|p t todo ts Hp Hnum IH]; intros t0 Hin.
  - reflexivity.
  - inversion Hin as [|? ? Ht Hin']; subst. simpl.
    rewrite (timestamp_pair_numeric f p t ts2 Hp H2).
    apply in_window_iff in Ht. rewrite Ht.
    rewrite (IH (Some t) Hin').
    destruct ts as [|t' ts']; [reflexivity|].
    simpl. destruct (last (t' :: ts')) eqn:E; [reflexivity|].
    destruct ts'; simpl in E; [discriminate|]. 
    apply last_None in E. discriminate.
Qed.


End ReassembleFacts.

Section ReassembleClaims.

Context (parseTagBlock : string -> gmap string string * string)
        (isChecksumValid : string -> bool)
        (checksumStr : string -> string)
        (pyfloat : string -> option Q)
        (cfg : Config).

Local Abbreviation parse_line := (parse_line parseTagBlock isChecksumValid cfg).
Local Abbreviation normalize := (normalize parseTagBlock isChecksumValid checksumStr pyfloat cfg).
Local Abbreviation reassemble := (reassemble isChecksumValid checksumStr pyfloat cfg).
Local Abbreviation finish := (finish isChecksumValid checksumStr pyfloat cfg).
Local Abbreviation synthesize := (synthesize isChecksumValid checksumStr).

Lemma normalize_multi line f st st' :
  parse_line line st = (st', Return (Multi f)) ->
  normalize line st = reassemble f st'.
Proof.
  intros H. unfold normalize. unfold mbind at 1. unfold M_bind at 1.
  rewrite H. reflexivity.
Qed.

Lemma finish_accept f parts ts ts2 st :
  pyfloat (f_timestamp f) = Some ts2 ->
  Forall2 (fun p t => pyfloat (p_timestamp p) = Some t) parts ts ->
  last ts = Some ts2 ->
  Forall (fun t => (Qabs (t - ts2) <= window cfg)%Q) ts ->
  finish f parts st = synthesize f parts (Some ts2) st.
Proof.
  intros H2 Hnum Hlast Hin. unfold finish. unfold mbind at 1. unfold M_bind at 1.
  rewrite (sanity_check_accept pyfloat cfg f parts parts ts ts2 None st H2 Hnum Hin).
  rewrite Hlast. reflexivity.
Qed.




(** ** Synthesis *)

Lemma synthesize_returns f parts ts1 st f0 f3 f4 f6 :
  f_fields f !! 0%nat = Some f0 -> f_fields f !! 3%nat = Some f3 ->
  f_fields f !! 4%nat = Some f4 -> f_fields f !! 6%nat = Some f6 ->
  let out := out_str checksumStr (f_fields f)
               (checksumed_str f0 f3 f4 (Py.join "" (p_payload <$> parts)) f6) ts1 in
  synthesize f parts ts1 st
  = ((if isChecksumValid out then st
      else with_handled [InvalidChecksumInConstructedError (Py.strip (f_line f))] st),
     Return (Some (merge_tagblocks parts, Py.strip out +:+ LF,
                   Py.join "" (p_origline <$> parts)))).
Proof.
  intros H0 H3 H4 H6 out. unfold synthesize, index, or_raise.
  rewrite H0, H3, H4, H6. unfold_m. fold out.
  destruct (isChecksumValid out); reflexivity.
Qed.

Lemma fields_lookup (fields : list string) (i : nat) :
  (i < length fields)%nat -> exists x, fields !! i = Some x.
Proof. intros H. apply lookup_lt_is_Some_2 in H. destruct H as [x Hx]. eauto. Qed.

(** ** Restarting a message *)

Lemma feed_cons {A} (step : string -> M A) l ls st st' o st'' os :
  step l st = (st', o) -> feed step ls st' = (st'', os) ->
  feed step (l :: ls) st = (st'', o :: os).
Proof. intros H1 H2. simpl. rewrite H1, H2. reflexivity. Qed.

(** C7: a fragment with index 1 replaces whatever its slot holds by a fresh
    one-element buffer and returns nothing; so after fragment 1 of a message
    that is never completed, fragment 1 and the final fragment of a second
    message on the same slot give exactly one message, built from the
    packets of the second attempt alone, and the first attempt leaves no
    output, no condition and no trace in the buffers. *)
Theorem restart_discards_partial (la lb lc : string) (fa fb fc : Fragment)
    (st : Engine) (tb tc : Q) :
  (forall s, parse_line la s = (s, Return (Multi fa))) ->
  (forall s, parse_line lb s = (s, Return (Multi fb))) ->
  (forall s, parse_line lc s = (s, Return (Multi fc))) ->
  sentenceNum fa = 1 -> sentenceNum fb = 1 ->
  sentenceNum fc <> 1 -> ~ sentenceNum fc < totNumSentences fc ->
  bufferSlot fb = bufferSlot fa -> bufferSlot fc = bufferSlot fa ->
  pyfloat (f_timestamp fb) = Some tb -> pyfloat (f_timestamp fc) = Some tc ->
  (Qabs (tb - tc) <= window cfg)%Q ->
  (6 < length (f_fields fc))%nat ->
  let slot := bufferSlot fa in
  let second := synthesize fc [newPacket fb; newPacket fc] (Some tc)
                  (with_buffers (delete slot (buffers st)) st) in
  feed normalize [la] st
  = (with_buffers (<[slot := [newPacket fa]]> (buffers st)) st, [Return None])
  /\ feed normalize [la; lb] st
     = (with_buffers (<[slot := [newPacket fb]]> (buffers st)) st,
        [Return None; Return None])
  /\ feed normalize [la; lb; lc] st
     = (second.1, [Return None; Return None; second.2])
  /\ (exists out,
        second.2 = Return (Some (merge_tagblocks [newPacket fb; newPacket fc], out,
                                 f_origline fb +:+ f_origline fc)))
  /\ buffers second.1 = delete slot (buffers st)
  /\ (handled second.1 = handled st
      \/ handled second.1
         = handled st ++ [InvalidChecksumInConstructedError (Py.strip (f_line fc))]).
Proof.
  intros Pa Pb Pc Na Nb Nc Nfin Sb Sc Tb Tc Hwin Hlen slot second.
  assert (Ha : normalize la st
               = (with_buffers (<[slot := [newPacket fa]]> (buffers st)) st, Return None)).
  { rewrite (normalize_multi la fa st st (Pa st)). apply reassemble_first, Na. }
  assert (Hb : normalize lb (with_buffers (<[slot := [newPacket fa]]> (buffers st)) st)
               = (with_buffers (<[slot := [newPacket fb]]> (buffers st)) st, Return None)).
  { rewrite (normalize_multi lb fb _ _ (Pb _)).
    rewrite (reassemble_first _ _ _ _ fb _ Nb). rewrite Sb. fold slot.
    unfold with_buffers. simpl. rewrite insert_insert_eq. reflexivity. }
  assert (Hc : normalize lc (with_buffers (<[slot := [newPacket fb]]> (buffers st)) st)
               = second).
  { rewrite (normalize_multi lc fc _ _ (Pc _)).
    rewrite (reassemble_final_known _ _ _ _ fc _ [newPacket fb] Nc Nfin)
      by (rewrite Sc; apply lookup_insert_eq).
    rewrite Sc. fold slot. unfold with_buffers at 1 2. simpl.
    rewrite delete_insert_eq.
    apply (finish_accept fc _ [tb; tc] tc); try assumption.
    - repeat constructor; assumption.
    - reflexivity.
    - constructor; [assumption|].
      assert (Hw : (0 <= window cfg)%Q)
        by (eapply Qle_trans; [apply (Qabs_nonneg (tb - tc)) | exact Hwin]).
      constructor; [|constructor].
      apply Qabs_Qle_condition. split; lra. }
  destruct (fields_lookup (f_fields fc) 0 ltac:(lia)) as [f0 H0].
  destruct (fields_lookup (f_fields fc) 3 ltac:(lia)) as [f3 H3].
  destruct (fields_lookup (f_fields fc) 4 ltac:(lia)) as [f4 H4].
  destruct (fields_lookup (f_fields fc) 6 ltac:(lia)) as [f6 H6].
  pose proof (synthesize_returns fc [newPacket fb; newPacket fc] (Some tc)
                (with_buffers (delete slot (buffers st)) st) f0 f3 f4 f6 H0 H3 H4 H6) as Hs.
  cbv zeta in Hs. fold second in Hs.
  split; [|split; [|split; [|split; [|split]]]].
  - apply (feed_cons _ _ _ _ _ _ _ _ Ha). reflexivity.
  - apply (feed_cons _ _ _ _ _ _ _ _ Ha). apply (feed_cons _ _ _ _ _ _ _ _ Hb). reflexivity.
  - apply (feed_cons _ _ _ _ _ _ _ _ Ha). apply (feed_cons _ _ _ _ _ _ _ _ Hb).
    apply (feed_cons _ _ _ _ second.1 second.2 second.1 []); [|reflexivity].
    rewrite Hc. destruct second; reflexivity.
  - rewrite Hs. simpl. eexists. reflexivity.
  - rewrite Hs. simpl. destruct (isChecksumValid _); reflexivity.
  - rewrite Hs. simpl. destruct (isChecksumValid _); [left|right]; reflexivity.
Qed.

End ReassembleClaims.

(** ** Which conditions leave an output *)

Ltac unfold_m_in H :=
  repeat progress
    (unfold mbind, M_bind, mret, M_ret, raise, handle_err, index, index_last, or_raise,
       buf_append, buf_get, buf_set, buf_del, buf_mem in H; cbn beta in H).

Section LogFacts.

Context (parseTagBlock : string -> gmap string string * string)
        (isChecksumValid : string -> bool)
        (checksumStr : string -> string)
        (pyfloat : string -> option Q)
        (cfg : Config).

Local Abbreviation parse_line := (parse_line parseTagBlock isChecksumValid cfg).
Local Abbreviation normalize := (normalize parseTagBlock isChecksumValid checksumStr pyfloat cfg).
Local Abbreviation reassemble := (reassemble isChecksumValid checksumStr pyfloat cfg).
Local Abbreviation finish := (finish isChecksumValid checksumStr pyfloat cfg).
Local Abbreviation synthesize := (synthesize isChecksumValid checksumStr).
Local Abbreviation sanity_check := (sanity_check pyfloat cfg).

Ltac split_match H :=
  match type of H with
  | context [ if ?b then _ else _ ] => destruct b eqn:?
  | context [ match ?o with Some _ => _ | None => _ end ] => destruct o eqn:?
  | context [ let (_, _) := ?p in _ ] => destruct p eqn:?
  end.

Lemma parse_line_passes line st st' p :
  parse_line line st = (st', Return p) -> p <> Done None ->
  buffers st' = buffers st
  /\ (handled st' = handled st
      \/ (exists l, handled st' = handled st ++ [InvalidChecksumError l])
         /\ validate_checksum cfg = true /\ pass_invalid_checksums cfg = true).
Proof.
  intros H Hp. unfold parse_line in H.
  destruct (parseTagBlock line) as [tagblock line0].
  unfold_m_in H.
  repeat (split_match H; cbn in H; try discriminate);
    inversion H; subst; clear H; try (exfalso; apply Hp; reflexivity);
    cbn; (split; [reflexivity|]);
    (try (left; reflexivity)).
  all: right; split; [eexists; reflexivity|].
  all: match goal with
       | H1 : validate_checksum cfg && _ = true,
         H2 : negb (pass_invalid_checksums cfg) = false |- _ =>
           apply andb_prop in H1 as [? _]; apply negb_false_iff in H2; auto
       end.
Qed.

Lemma sanity_check_accepted f parts todo t st st' t' :
  sanity_check f parts todo t st = (st', Return (Accepted t')) -> st' = st.
Proof.
  revert t. induction todo as [|p todo IH]; intros t H; simpl in H.
  - inversion H. reflexivity.
  - destruct (timestamp_pair pyfloat cfg f p) as [[t1 t2]|]; [|discriminate].
    destruct (out_of_window cfg t1 t2); [discriminate|].
    apply (IH _ H).
Qed.

Lemma sanity_check_returns f parts todo t st :
  exists st' c, sanity_check f parts todo t st = (st', Return c)
    /\ buffers st' = buffers st.
Proof.
  revert t. induction todo as [|p todo IH]; intros t; simpl.
  - eauto.
  - destruct (timestamp_pair pyfloat cfg f p) as [[t1 t2]|]; [|unfold_m; eauto].
    destruct (out_of_window cfg t1 t2); [unfold_m; eauto|].
    apply IH.
Qed.

Lemma synthesize_handled f parts ts st st' o :
  synthesize f parts ts st = (st', o) ->
  buffers st' = buffers st
  /\ (handled st' = handled st
      \/ (handled st' = handled st ++ [InvalidChecksumInConstructedError (Py.strip (f_line f))]
          /\ exists m, o = Return (Some m))).
Proof.
  intros H. unfold synthesize in H. unfold_m_in H.
  repeat (split_match H; cbn in H; try discriminate);
    inversion H; subst; clear H; cbn; (split; [reflexivity|]); eauto.
Qed.

Lemma reassemble_some f st st' m :
  reassemble f st = (st', Return (Some m)) ->
  handled st' = handled st
  \/ handled st' = handled st ++ [InvalidChecksumInConstructedError (Py.strip (f_line f))].
Proof.
  intros H.
  destruct (Z.eq_dec (sentenceNum f) 1) as [E1|E1].
  { rewrite (reassemble_first _ _ _ _ f st E1) in H. discriminate. }
  destruct (Z_lt_dec (sentenceNum f) (totNumSentences f)) as [E2|E2];
    destruct (buffers st !! bufferSlot f) as [prev|] eqn:Eb.
  - rewrite (reassemble_middle_known _ _ _ _ f st prev E1 E2 Eb) in H. discriminate.
  - rewrite (reassemble_middle_unknown _ _ _ _ f st E1 E2 Eb) in H. discriminate.
  - rewrite (reassemble_final_known _ _ _ _ f st prev E1 E2 Eb) in H.
    unfold finish in H. unfold mbind at 1 in H. unfold M_bind at 1 in H.
    destruct (sanity_check f _ _ None _) as [s1 [c|e]] eqn:Es; [|discriminate].
    destruct c as [|ts1]; [discriminate|].
    apply sanity_check_accepted in Es. subst s1.
    apply synthesize_handled in H as [_ [H|[H _]]]; [left|right]; exact H.
  - rewrite (reassemble_final_unknown _ _ _ _ f st E1 E2 Eb) in H. discriminate.
Qed.


(** C6 (amended): when the synthesized sentence fails its checksum,
    [InvalidChecksumInConstructed] is signaled and the synthesized message
    is returned all the same; and whenever [normalize] returns a message,
    the conditions it signaled on that line are that one, or
    [InvalidChecksum] under [validate_checksum] and
    [pass_invalid_checksums]: no other condition leaves an output. *)
Theorem constructed_checksum_keeps_output :
  (forall f parts ts1 st f0 f3 f4 f6,
      f_fields f !! 0%nat = Some f0 -> f_fields f !! 3%nat = Some f3 ->
      f_fields f !! 4%nat = Some f4 -> f_fields f !! 6%nat = Some f6 ->
      let out := out_str checksumStr (f_fields f)
                   (checksumed_str f0 f3 f4 (Py.join "" (p_payload <$> parts)) f6) ts1 in
      isChecksumValid out = false ->
      synthesize f parts ts1 st
      = (with_handled [InvalidChecksumInConstructedError (Py.strip (f_line f))] st,
         Return (Some (merge_tagblocks parts, Py.strip out +:+ LF,
                       Py.join "" (p_origline <$> parts)))))
  /\ (forall line st st' m,
         normalize line st = (st', Return (Some m)) ->
         exists news,
           handled st' = handled st ++ news
           /\ forall e, e ∈ news ->
                (exists l, e = InvalidChecksumInConstructedError l)
                \/ ((exists l, e = InvalidChecksumError l)
                    /\ validate_checksum cfg = true
                    /\ pass_invalid_checksums cfg = true)).
Proof.
  split.
  - intros f parts ts1 st f0 f3 f4 f6 H0 H3 H4 H6 out Hbad.
    rewrite (synthesize_returns isChecksumValid checksumStr f parts ts1 st f0 f3 f4 f6 H0 H3 H4 H6).
    cbv zeta. fold out. rewrite Hbad. reflexivity.
  - intros line st st' m H. unfold normalize in H.
    unfold mbind at 1 in H. unfold M_bind at 1 in H.
    destruct (parse_line line st) as [s1 [p|e]] eqn:Ep; [|discriminate].
    assert (Hp : p <> Done None).
    { intros ->. discriminate. }
    destruct (parse_line_passes line st s1 p Ep Hp) as [_ Hlog].
    assert (Hre : handled st' = handled s1
                  \/ exists l, handled st' = handled s1 ++ [InvalidChecksumInConstructedError l]).
    { destruct p as [r|f].
      - inversion H; subst. left; reflexivity.
      - apply reassemble_some in H as [H|H]; eauto. }
    destruct Hlog as [Hlog|[[l Hlog] [Hv Hpass]]], Hre as [Hre|[l' Hre]];
      rewrite Hre, Hlog.
    + exists []. rewrite app_nil_r. split; [reflexivity|]. intros e He. inversion He.
    + eexists. split; [reflexivity|]. intros e He.
      apply list_elem_of_singleton in He as ->. left; eauto.
    + eexists. split; [reflexivity|]. intros e He.
      apply list_elem_of_singleton in He as ->. right; eauto.
    + rewrite <- app_assoc. eexists. split; [reflexivity|]. intros e He.
      simpl in He. apply elem_of_cons in He as [->|He]; [right; eauto|].
      apply list_elem_of_singleton in He as ->. left; eauto.
Qed.

End LogFacts.

(** ** The decode adapter *)

Section DecodeClaims.

Context (parseTagBlock : string -> gmap string string * string)
        (isChecksumValid : string -> bool)
        (checksumStr : string -> string)
        (pyfloat : string -> option Q)
        (decode_ais : string -> Z -> (string * string) + gmap string pyval)
        (cfg : Config).

Local Abbreviation normalize := (normalize parseTagBlock isChecksumValid checksumStr pyfloat cfg).
Local Abbreviation decode := (decode parseTagBlock isChecksumValid checksumStr pyfloat decode_ais cfg).

Lemma decode_reaches_decoder line st st' tagblock sentence origline body padc pad :
  normalize line st = (st', Return (Some (tagblock, sentence, origline))) ->
  Py.split "," sentence !! 5%nat = Some body ->
  last_char (hd "" (Py.split "*" sentence)) = Some padc ->
  Py.int padc = Some pad ->
  decode line st
  = match decode_ais body pad with
    | inl (error_type, error) =>
        (with_handled [DecodeError (Py.strip origline) error_type error] st', Return None)
    | inr res =>
        (st', Return (Some (build_record (keep_nmea cfg) res tagblock origline)))
    end.
Proof.
  intros Hn Hb Hc Hp. unfold decode. unfold mbind at 1. unfold M_bind at 1.
  rewrite Hn. unfold index, or_raise. unfold_m.
  rewrite Hb. cbn beta iota. rewrite Hc. cbn beta iota. rewrite Hp. cbn beta iota.
  destruct (decode_ais body pad) as [[ty err]|res]; reflexivity.
Qed.

(** C9: when the engine gave a message and [ais.decode] fails on its
    payload, [decode] hands a [DecodeError] carrying the (stripped)
    provenance text and the type and message of the failure to the handler
    and returns nothing; no exception leaves [decode]. *)
Theorem decode_failure_is_swallowed line st st' tagblock sentence origline
    body padc pad error_type error :
  normalize line st = (st', Return (Some (tagblock, sentence, origline))) ->
  Py.split "," sentence !! 5%nat = Some body ->
  last_char (hd "" (Py.split "*" sentence)) = Some padc ->
  Py.int padc = Some pad ->
  decode_ais body pad = inl (error_type, error) ->
  decode line st
  = (with_handled [DecodeError (Py.strip origline) error_type error] st', Return None).
Proof.
  intros Hn Hb Hc Hp Hd.
  rewrite (decode_reaches_decoder _ _ _ _ _ _ _ _ _ Hn Hb Hc Hp), Hd. reflexivity.
Qed.


Lemma build_record_nmea res (tagblock : gmap string string) origline :
  build_record true res tagblock origline !! "nmea" = Some (PStr origline).
Proof. unfold build_record. apply lookup_insert_eq. Qed.


End DecodeClaims.

Lemma decode_failure_is_swallowed_witness :
  decode_ref decoder_failing default_config line_single empty_engine
  = (with_handled
       [DecodeError "!AIVDM,1,1,,A,P,0*76" "DecodeError" "Ais7_13: AIS_ERR_BAD_BIT_COUNT"]
       empty_engine,
     Return None).
Proof.
  apply (decode_failure_is_swallowed Codec.parse Codec.validate Codec.checksumStr
           Codec.float_int decoder_failing default_config line_single empty_engine
           empty_engine ∅ line_single line_single "P" "0" 0).
  - reflexivity.
  - reflexivity.
  - reflexivity.
  - reflexivity.
  - reflexivity.
Defined.


(** ** The engine on the sample sentences *)



(** One second beyond the window, the pair is refused. *)
Example window_exceeded :
  reassemble Codec.validate Codec.checksumStr Codec.float_int default_config
    frag_b2_late engine_b1
  = (with_handled
       [DifferingTimestampsError "!AIVDM,2,2,6,A,BBB,2*50,rX,103" "103"
          [newPacket frag_b1; newPacket frag_b2_late]]
       empty_engine,
     Return None).
Proof. vm_compute. reflexivity. Qed.

Lemma restart_discards_partial_witness :
  feed (normalize_ref default_config) [line_a1; line_b1; line_b2] empty_engine
  = (empty_engine,
     [Return None; Return None;
      Return (Some (∅, "!AIVDM,1,1,6,A,CCCBBB,2*13,rX,102" +:+ LF, line_b1 +:+ line_b2))]).
Proof.
  destruct (restart_discards_partial Codec.parse Codec.validate Codec.checksumStr
              Codec.float_int default_config line_a1 line_b1 line_b2
              frag_a1 frag_b1 frag_b2 empty_engine 100%Q 102%Q)
    as (_ & _ & H3 & _).
  - intros s. reflexivity.
  - intros s. reflexivity.
  - intros s. reflexivity.
  - reflexivity.
  - reflexivity.
  - discriminate.
  - vm_compute. intros H; discriminate H.
  - reflexivity.
  - reflexivity.
  - reflexivity.
  - reflexivity.
  - vm_compute. discriminate.
  - simpl. lia.
  - exact H3.
Defined.

Lemma constructed_checksum_keeps_output_witness :
  synthesize Codec.validate (fun _ => "00") frag_b2
    [newPacket frag_b1; newPacket frag_b2] (Some 102%Q) empty_engine
  = (with_handled [InvalidChecksumInConstructedError "!AIVDM,2,2,6,A,BBB,2*50,rX,102"]
       empty_engine,
     Return (Some (∅, "!AIVDM,1,1,6,A,CCCBBB,2*00,rX,102" +:+ LF, line_b1 +:+ line_b2))).
Proof.
  destruct (constructed_checksum_keeps_output Codec.parse Codec.validate
              (fun _ => "00") Codec.float_int default_config) as [Hkeep _].
  apply (Hkeep frag_b2 [newPacket frag_b1; newPacket frag_b2] (Some 102%Q)
           empty_engine "!AIVDM" "6" "A" "2*50"); reflexivity.
Defined.

(** C6, as stated, fails: with [pass_invalid_checksums], a single sentence
    with a wrong checksum signals [InvalidChecksum] and is returned all the
    same, so [InvalidChecksumInConstructed] is not the only condition that
    leaves an output. *)
Lemma constructed_checksum_only_counterexample :
  normalize_ref config_pass_invalid line_bad_checksum empty_engine
  = (with_handled [InvalidChecksumError "!AIVDM,1,1,,A,P,0*00"] empty_engine,
     Return (Some (∅, line_bad_checksum, line_bad_checksum))).
Proof. vm_compute. reflexivity. Qed.

(** C1: a sentence whose total-fragment-count is not a number passes the
    checksum and makes [int(fields[1])] raise [ValueError] out of
    [normalize]; nothing is handed to the handler. *)
Theorem normalize_raises_on_bad_count :
  Codec.validate line_bad_count = true
  /\ normalize_ref default_config line_bad_count empty_engine
     = (empty_engine, Raise ValueError).
Proof. split; vm_compute; reflexivity. Qed.

(** C2: a middle fragment arriving when its slot has no buffer makes
    [buffers[bufferSlot].append] raise [KeyError] out of [normalize]. *)
Theorem normalize_raises_on_middle_fragment :
  Codec.validate line_middle = true
  /\ normalize_ref default_config line_middle empty_engine
     = (empty_engine, Raise KeyError).
Proof. split; vm_compute; reflexivity. Qed.

(** C5: two fragments whose trailing timestamp is the number 0 pass the
    check by numeric parsing, with [allow_missing_timestamps] off, and the
    synthesized sentence still drops the timestamp field. *)
Theorem zero_timestamp_is_dropped :
  allow_missing_timestamps default_config = false
  /\ Codec.float_int "0" = Some 0%Q
  /\ feed (normalize_ref default_config) [line_z1; line_z2] empty_engine
     = (empty_engine,
        [Return None;
         Return (Some (∅, "!AIVDM,1,1,6,A,AAABBB,2*11,rX" +:+ LF, line_z1 +:+ line_z2))]).
Proof. repeat split; vm_compute; reflexivity. Qed.

(** ** The sample codec on a synthesized sentence *)

(** The sentence synthesized from the second sample message validates. *)
Example synthesized_sentence_validates :
  Codec.validate ("!AIVDM,1,1,6,A,CCCBBB,2*"
                  +:+ Codec.checksumStr "!AIVDM,1,1,6,A,CCCBBB,2*" +:+ ",rX,102") = true.
Proof. reflexivity. Qed.

(** * Further properties of the engine *)

(** ** What a computation does to the engine *)

Lemma with_handled_nil (st : Engine) : with_handled [] st = st.
Proof. destruct st as [b h]. unfold with_handled. simpl. by rewrite app_nil_r. Qed.

Lemma with_handled_app (n1 n2 : list AISError) (st : Engine) :
  with_handled n2 (with_handled n1 st) = with_handled (n1 ++ n2) st.
Proof. unfold with_handled. simpl. by rewrite app_assoc. Qed.

Lemma logs_ret {A} (a : A) : logs 0 (mret a : M A).
Proof. intros st. exists []. unfold_m. simpl. by rewrite app_nil_r. Qed.

Lemma logs_raise {A} (e : PyExn) : logs 0 (raise e : M A).
Proof. intros st. exists []. unfold_m. simpl. by rewrite app_nil_r. Qed.

Lemma logs_handle_err (e : AISError) : logs 1 (handle_err e).
Proof. intros st. exists [e]. unfold_m. simpl. split; [reflexivity | lia]. Qed.

Lemma logs_weaken {A} (n k : nat) (m : M A) : (n <= k)%nat -> logs n m -> logs k m.
Proof. intros Hnk H st. destruct (H st) as (news & ? & ?). exists news. split; [done | lia]. Qed.

Lemma logs_bind {A B} (n k : nat) (m : M A) (f : A -> M B) :
  logs n m -> (forall a, logs k (f a)) -> logs (n + k) (m ≫= f).
Proof.
  intros Hm Hf st. destruct (Hm st) as (n1 & H1 & L1).
  unfold mbind, M_bind. destruct (m st) as [s1 [a|e]]; simpl in *.
  - destruct (Hf a s1) as (n2 & H2 & L2). exists (n1 ++ n2).
    rewrite H2, H1, app_assoc, length_app. split; [reflexivity | lia].
  - exists n1. split; [exact H1 | lia].
Qed.

Lemma logs_or_raise {A} (e : PyExn) (o : option A) : logs 0 (or_raise e o).
Proof. destruct o; [apply logs_ret | apply logs_raise]. Qed.

Lemma keeps_ret {A} (a : A) : keeps_buffers (mret a : M A).
Proof. intros st. reflexivity. Qed.

Lemma keeps_raise {A} (e : PyExn) : keeps_buffers (raise e : M A).
Proof. intros st. reflexivity. Qed.

Lemma keeps_handle_err (e : AISError) : keeps_buffers (handle_err e).
Proof. intros st. reflexivity. Qed.

Lemma keeps_or_raise {A} (e : PyExn) (o : option A) : keeps_buffers (or_raise e o).
Proof. destruct o; [apply keeps_ret | apply keeps_raise]. Qed.

Lemma keeps_bind {A B} (m : M A) (f : A -> M B) :
  keeps_buffers m -> (forall a, keeps_buffers (f a)) -> keeps_buffers (m ≫= f).
Proof.
  intros Hm Hf st. specialize (Hm st).
  unfold mbind, M_bind. destruct (m st) as [s1 [a|e]]; simpl in *.
  - rewrite (Hf a s1). exact Hm.
  - exact Hm.
Qed.

(** ** String appends *)

Lemma str_app_cons (c : ascii) (s t : string) : String c s +:+ t = String c (s +:+ t).
Proof. reflexivity. Qed.

Lemma str_app_nil_r (s : string) : s +:+ "" = s.
Proof.
  induction s as [|c s IH]; [reflexivity|].
  rewrite str_app_cons. f_equal. exact IH.
Qed.

Lemma str_app_assoc (s t u : string) : (s +:+ t) +:+ u = s +:+ (t +:+ u).
Proof.
  induction s as [|c s IH]; [reflexivity|].
  rewrite !str_app_cons. f_equal. exact IH.
Qed.

Lemma str_length_app (s t : string) :
  String.length (s +:+ t) = (String.length s + String.length t)%nat.
Proof.
  induction s as [|c s IH]; [reflexivity|].
  rewrite str_app_cons. simpl. f_equal. exact IH.
Qed.

Ltac keeps :=
  repeat first
    [ apply keeps_ret | apply keeps_raise | apply keeps_handle_err
    | apply keeps_or_raise
    | apply keeps_bind; [|intros ?]
    | match goal with
      | |- keeps_buffers (if ?b then _ else _) => destruct b
      | |- keeps_buffers (match ?o with Some _ => _ | None => _ end) => destruct o
      end ].

Ltac log_news :=
  first
    [ exists []; split; [apply eq_sym, with_handled_nil | simpl; lia]
    | eexists [_]; split;
      [unfold with_handled; simpl; rewrite <- ?app_assoc; reflexivity | simpl; lia]
    | eexists [_; _]; split;
      [unfold with_handled; simpl; rewrite <- ?app_assoc; reflexivity | simpl; lia] ].

Section EngineEffects.

Context (parseTagBlock : string -> gmap string string * string)
        (isChecksumValid : string -> bool)
        (checksumStr : string -> string)
        (pyfloat : string -> option Q)
        (cfg : Config).

Local Abbreviation parse_line := (parse_line parseTagBlock isChecksumValid cfg).
Local Abbreviation normalize := (normalize parseTagBlock isChecksumValid checksumStr pyfloat cfg).
Local Abbreviation reassemble := (reassemble isChecksumValid checksumStr pyfloat cfg).
Local Abbreviation finish := (finish isChecksumValid checksumStr pyfloat cfg).
Local Abbreviation synthesize := (synthesize isChecksumValid checksumStr).
Local Abbreviation sanity_check := (sanity_check pyfloat cfg).

Ltac split_match H :=
  match type of H with
  | context [ if ?b then _ else _ ] => destruct b eqn:?
  | context [ match ?o with Some _ => _ | None => _ end ] => destruct o eqn:?
  | context [ let (_, _) := ?p in _ ] => destruct p eqn:?
  end.

Lemma parse_line_keeps line : keeps_buffers (parse_line line).
Proof.
  unfold parse_line. destruct (parseTagBlock line) as [tagblock line0].
  unfold index, index_last. keeps.
Qed.

Lemma parse_line_effect line st :
  exists news, (parse_line line st).1 = with_handled news st /\ (length news <= 2)%nat.
Proof.
  destruct (parse_line line st) as [st' o] eqn:H. unfold parse_line in H.
  destruct (parseTagBlock line) as [tagblock line0].
  unfold_m_in H.
  repeat (split_match H; cbn in H);
    inversion H; subst; clear H; cbn [fst]; log_news.
Qed.

Lemma parse_line_no_index_error line st st' :
  parse_line line st <> (st', Raise IndexError).
Proof.
  intros H. unfold parse_line in H.
  destruct (parseTagBlock line) as [tagblock line0].
  set (fields := Py.split "," (Py.strip line0 +:+ LF)) in *.
  unfold_m_in H.
  repeat (split_match H; cbn in H; try discriminate).
  all: repeat match goal with
         | H : (_ <? _)%nat = false |- _ => apply Nat.ltb_ge in H
         | H : (_ <=? _)%nat = false |- _ => apply Nat.leb_gt in H
         | H : _ !! _ = None |- _ => apply lookup_ge_None in H
         | H : last _ = None |- _ => apply last_None in H; rewrite H in *; simpl in *
         end; try lia.
Qed.

Lemma sanity_check_effect f parts todo t :
  exists news c,
    (forall st, sanity_check f parts todo t st = (with_handled news st, Return c))
    /\ (length news <= 1)%nat
    /\ (forall ts1, c = Accepted ts1 -> news = []).
Proof.
  revert t. induction todo as [|p todo IH]; intros t; simpl.
  - exists [], (Accepted t). split; [|auto].
    intros st. rewrite with_handled_nil. reflexivity.
  - destruct (timestamp_pair pyfloat cfg f p) as [[t1 t2]|].
    + destruct (out_of_window cfg t1 t2); [|apply IH].
      eexists [_], Rejected. split; [reflexivity|]. split; [simpl; lia | discriminate].
    + eexists [_], Rejected. split; [reflexivity|]. split; [simpl; lia | discriminate].
Qed.

Lemma synthesize_effect f parts ts :
  exists news o,
    (forall st, synthesize f parts ts st = (with_handled news st, o))
    /\ (length news <= 1)%nat
    /\ (forall e, o = Raise e -> e = IndexError /\ news = [])
    /\ (forall m, o = Return m ->
          exists out, m = Some (merge_tagblocks parts, Py.strip out +:+ LF,
                                Py.join "" (p_origline <$> parts))).
Proof.
  unfold synthesize, index, or_raise.
  destruct (f_fields f !! 0%nat) as [f0|];
    [destruct (f_fields f !! 3%nat) as [f3|];
     [destruct (f_fields f !! 4%nat) as [f4|];
      [destruct (f_fields f !! 6%nat) as [f6|]|]|]|].
  2-5: exists [], (Raise IndexError);
       (split; [intros st; rewrite with_handled_nil; reflexivity|]);
       (split; [simpl; lia|]);
       (split; [intros e He; inversion He; auto | discriminate]).
  unfold_m.
  destruct (isChecksumValid _) eqn:Hv; cbn [negb].
  - eexists [], (Return _).
    split; [intros st; rewrite with_handled_nil; reflexivity|].
    split; [simpl; lia|]. split; [discriminate|].
    intros m Hm. inversion Hm. eexists. reflexivity.
  - eexists [_], (Return _).
    split; [intros st; reflexivity|].
    split; [simpl; lia|]. split; [discriminate|].
    intros m Hm. inversion Hm. eexists. reflexivity.
Qed.

Lemma finish_effect f parts :
  exists news o,
    (forall st, finish f parts st = (with_handled news st, o))
    /\ (length news <= 1)%nat
    /\ (forall e, o = Raise e -> e = IndexError)
    /\ (forall m, o = Return (Some m) ->
          exists out, m = (merge_tagblocks parts, Py.strip out +:+ LF,
                           Py.join "" (p_origline <$> parts))).
Proof.
  destruct (sanity_check_effect f parts parts None) as (n1 & c & Hs & L1 & Hacc).
  destruct c as [|ts1].
  - exists n1, (Return None). split; [|split; [exact L1 | split; discriminate]].
    intros st. unfold finish, mbind, M_bind. rewrite Hs. reflexivity.
  - rewrite (Hacc ts1 eq_refl) in Hs.
    destruct (synthesize_effect f parts ts1) as (n2 & o & Hy & L2 & Hr & Hm).
    exists n2, o. split; [|split; [exact L2 | split]].
    + intros st. unfold finish, mbind, M_bind. rewrite Hs, with_handled_nil. apply Hy.
    + intros e He. apply (Hr e He).
    + intros m ->. destruct (Hm _ eq_refl) as [out Ho]. inversion Ho. eauto.
Qed.

End EngineEffects.

Section EngineProperties.

Context (parseTagBlock : string -> gmap string string * string)
        (isChecksumValid : string -> bool)
        (checksumStr : string -> string)
        (pyfloat : string -> option Q)
        (cfg : Config).

Local Abbreviation parse_line := (parse_line parseTagBlock isChecksumValid cfg).
Local Abbreviation normalize := (normalize parseTagBlock isChecksumValid checksumStr pyfloat cfg).
Local Abbreviation reassemble := (reassemble isChecksumValid checksumStr pyfloat cfg).
Local Abbreviation finish := (finish isChecksumValid checksumStr pyfloat cfg).

Local Abbreviation reassemble_case := (reassemble_case isChecksumValid checksumStr pyfloat cfg).

Lemma reassemble_cases f st : reassemble_case f st (reassemble f st).
Proof.
  destruct (Z.eq_dec (sentenceNum f) 1) as [E1|E1].
  { rewrite (reassemble_first _ _ _ _ f st E1). by constructor. }
  destruct (Z_lt_dec (sentenceNum f) (totNumSentences f)) as [E2|E2];
    destruct (buffers st !! bufferSlot f) as [prev|] eqn:Eb.
  - rewrite (reassemble_middle_known _ _ _ _ f st prev E1 E2 Eb). by constructor.
  - rewrite (reassemble_middle_unknown _ _ _ _ f st E1 E2 Eb). by constructor.
  - rewrite (reassemble_final_known _ _ _ _ f st prev E1 E2 Eb). by constructor.
  - rewrite (reassemble_final_unknown _ _ _ _ f st E1 E2 Eb). by constructor.
Qed.

Lemma normalize_after_parse line st :
  normalize line st
  = match parse_line line st with
    | (st1, Return (Done r)) => (st1, Return r)
    | (st1, Return (Multi f)) => reassemble f st1
    | (st1, Raise e) => (st1, Raise e)
    end.
Proof.
  unfold normalize, mbind, M_bind.
  destruct (parse_line line st) as [st1 [[r|f]|e]]; reflexivity.
Qed.

(** X1: a final fragment whose slot has a buffer always takes that buffer
    out of the engine, whether a message comes out, the timestamps are
    refused or the synthesis raises. *)
Theorem final_fragment_consumes_buffer (f : Fragment) (st : Engine)
    (prev : list Packet) :
  sentenceNum f <> 1 -> ~ sentenceNum f < totNumSentences f ->
  buffers st !! bufferSlot f = Some prev ->
  buffers (reassemble f st).1 = delete (bufferSlot f) (buffers st).
Proof.
  intros H1 H2 Hb.
  rewrite (reassemble_final_known _ _ _ _ f st prev H1 H2 Hb).
  destruct (finish_effect isChecksumValid checksumStr pyfloat cfg f (prev ++ [newPacket f]))
    as (news & o & -> & _).
  reflexivity.
Qed.

Lemma reassemble_frame f st k :
  k <> bufferSlot f -> buffers (reassemble f st).1 !! k = buffers st !! k.
Proof.
  intros Hk. destruct (reassemble_cases f st) as [| | | |prev E1 E2 Eb]; simpl.
  - by rewrite lookup_insert_ne.
  - by rewrite lookup_insert_ne.
  - reflexivity.
  - reflexivity.
  - destruct (finish_effect isChecksumValid checksumStr pyfloat cfg f (prev ++ [newPacket f]))
      as (news & o & -> & _).
    simpl. by rewrite lookup_delete_ne.
Qed.

(** X2: one call of [normalize] changes the buffer of at most one slot. *)
Theorem normalize_touches_one_slot (line : string) (st : Engine) :
  exists slot, forall k, k <> slot ->
    buffers (normalize line st).1 !! k = buffers st !! k.
Proof.
  rewrite normalize_after_parse.
  pose proof (parse_line_keeps parseTagBlock isChecksumValid cfg line st) as Hk.
  destruct (parse_line line st) as [st1 [[r|f]|e]]; simpl in Hk.
  - exists []. intros k _. simpl. by rewrite Hk.
  - exists (bufferSlot f). intros k Hne. rewrite reassemble_frame by exact Hne.
    by rewrite Hk.
  - exists []. intros k _. simpl. by rewrite Hk.
Qed.

Lemma reassemble_log f st :
  exists news, handled (reassemble f st).1 = handled st ++ news /\ (length news <= 1)%nat.
Proof.
  destruct (reassemble_cases f st) as [| | | |prev E1 E2 Eb]; simpl.
  1-3: exists []; rewrite app_nil_r; split; [reflexivity | simpl; lia].
  - eexists [_]. split; [reflexivity | simpl; lia].
  - destruct (finish_effect isChecksumValid checksumStr pyfloat cfg f (prev ++ [newPacket f]))
      as (news & o & -> & L & _).
    exists news. split; [reflexivity | exact L].
Qed.

(** X3: [normalize] only appends to what the handler has received, and at
    most two conditions per line. *)
Theorem normalize_signals_at_most_two (line : string) (st : Engine) :
  exists news,
    handled (normalize line st).1 = handled st ++ news /\ (length news <= 2)%nat.
Proof.
  rewrite normalize_after_parse.
  destruct (parse_line_effect parseTagBlock isChecksumValid cfg line st)
    as (n1 & H1 & L1).
  destruct (parse_line line st) as [st1 [[r|f]|e]] eqn:Ep; simpl in H1; subst st1.
  - exists n1. split; [reflexivity | exact L1].
  - destruct (parse_line_passes parseTagBlock isChecksumValid cfg line st _ _ Ep)
      as [_ Hlog]; [discriminate|].
    destruct (reassemble_log f (with_handled n1 st)) as (n2 & H2 & L2).
    rewrite H2. simpl. rewrite <- app_assoc. exists (n1 ++ n2).
    split; [reflexivity|]. rewrite length_app.
    assert (length n1 <= 1)%nat; [|lia].
    simpl in Hlog. destruct Hlog as [Hlog|[[l Hlog] _]].
    + assert (n1 = []) as ->; [|simpl; lia].
      apply (app_inv_head (handled st)). rewrite app_nil_r. exact Hlog.
    + apply app_inv_head in Hlog. subst n1. simpl. lia.
  - exists n1. split; [reflexivity | exact L1].
Qed.

(** X4: when [normalize] raises, the buffers are as they were, unless the
    exception is the [IndexError] of the synthesis: then the buffer of the
    slot has already been taken out and the message is lost. *)
Theorem normalize_raise_and_buffers (line : string) (st st' : Engine) (e : PyExn) :
  normalize line st = (st', Raise e) ->
  (e <> IndexError -> buffers st' = buffers st)
  /\ (e = IndexError ->
      exists slot prev, buffers st !! slot = Some prev
                        /\ buffers st' = delete slot (buffers st)).
Proof.
  rewrite normalize_after_parse.
  pose proof (parse_line_keeps parseTagBlock isChecksumValid cfg line st) as Hk.
  pose proof (parse_line_no_index_error parseTagBlock isChecksumValid cfg line st) as Hn.
  destruct (parse_line line st) as [st1 [[r|f]|e1]]; simpl in Hk; intros H.
  - discriminate.
  - destruct (reassemble_cases f st1) as [| | | |prev E1 E2 Eb]; try discriminate.
    + inversion H; subst. split; [intros _; exact Hk | discriminate].
    + destruct (finish_effect isChecksumValid checksumStr pyfloat cfg f (prev ++ [newPacket f]))
        as (news & o & Hf & _ & Hr & _).
      rewrite Hf in H. inversion H; subst.
      rewrite (Hr e eq_refl). split; [congruence|]. intros _.
      exists (bufferSlot f), prev. simpl. rewrite <- Hk. auto.
  - inversion H; subst. split; [intros _; exact Hk|].
    intros ->. exfalso. apply (Hn st'). reflexivity.
Qed.

Ltac split_match H :=
  match type of H with
  | context [ if ?b then _ else _ ] => destruct b eqn:?
  | context [ match ?o with Some _ => _ | None => _ end ] => destruct o eqn:?
  | context [ let (_, _) := ?p in _ ] => destruct p eqn:?
  end.

Lemma parse_line_multi line st st' f :
  parse_line line st = (st', Return (Multi f)) ->
  names_station (bufferSlot f) /\ f_origline f = line /\ totNumSentences f <> 1.
Proof.
  intros H. unfold parse_line in H.
  destruct (parseTagBlock line) as [tagblock line0].
  unfold_m_in H.
  repeat (split_match H; cbn in H; try discriminate);
    inversion H; subst; clear H; cbn.
  all: split; [|split; [reflexivity|]].
  all: try (intros ->; cbn in *; congruence).
  all: match goal with
       | H : bool_decide _ = false |- _ => apply bool_decide_eq_false in H
       end.
  all: first
    [ right; discriminate
    | left; discriminate
    | exfalso; match goal with H : ~ _ |- _ => apply H; split; reflexivity end
    | left; intros E;
      match goal with H : ~ _ |- _ => apply H; split; [reflexivity | exact E] end ].
Qed.

Lemma reassemble_keeps_ok f st :
  names_station (bufferSlot f) -> buffers_ok st -> buffers_ok (reassemble f st).1.
Proof.
  intros Hs Hok. destruct (reassemble_cases f st) as [| | | |prev E1 E2 Eb]; simpl.
  - intros k l. simpl. rewrite lookup_insert.
    case_decide; [|apply Hok]. intros [= <-]. subst k. split; [discriminate | exact Hs].
  - intros k l. simpl. rewrite lookup_insert.
    case_decide; [|apply Hok]. intros [= <-]. subst k.
    split; [|exact Hs]. intros E. apply app_eq_nil in E as [_ ?]. discriminate.
  - exact Hok.
  - exact Hok.
  - destruct (finish_effect isChecksumValid checksumStr pyfloat cfg f (prev ++ [newPacket f]))
      as (news & o & -> & _).
    intros k l. simpl. intros Hk. apply lookup_delete_Some in Hk as [_ Hk].
    apply (Hok k l Hk).
Qed.

Lemma normalize_keeps_ok line st :
  buffers_ok st -> buffers_ok (normalize line st).1.
Proof.
  intros Hok. rewrite normalize_after_parse.
  pose proof (parse_line_keeps parseTagBlock isChecksumValid cfg line st) as Hk.
  destruct (parse_line line st) as [st1 [[r|f]|e]] eqn:Ep; simpl in Hk.
  - intros k l. simpl. rewrite Hk. apply Hok.
  - apply reassemble_keeps_ok.
    + apply (parse_line_multi line st st1 f Ep).
    + intros k l. rewrite Hk. apply Hok.
  - intros k l. simpl. rewrite Hk. apply Hok.
Qed.

Lemma feed_fst_cons {A} (step : string -> M A) l ls st :
  (feed step (l :: ls) st).1 = (feed step ls (step l st).1).1.
Proof.
  simpl. destruct (step l st) as [st' o]. simpl.
  destruct (feed step ls st') as [st'' os]. reflexivity.
Qed.

(** X5: whatever lines a fresh engine is fed, and whatever they raise or
    signal, no buffer is ever empty and every slot in use names a tagblock
    station or a trailing station. *)
Theorem buffers_stay_well_formed (lines : list string) :
  buffers_ok (feed normalize lines empty_engine).1.
Proof.
  assert (H : forall st, buffers_ok st -> buffers_ok (feed normalize lines st).1).
  { induction lines as [|l ls IH]; intros st Hok.
    - exact Hok.
    - rewrite feed_fst_cons. apply IH, normalize_keeps_ok, Hok. }
  apply H. intros k l Hk. simpl in Hk. rewrite lookup_empty in Hk. discriminate.
Qed.

Lemma reassemble_local g s1 s2 :
  buffers s1 !! bufferSlot g = buffers s2 !! bufferSlot g ->
  (reassemble g s1).2 = (reassemble g s2).2
  /\ buffers (reassemble g s1).1 !! bufferSlot g
     = buffers (reassemble g s2).1 !! bufferSlot g.
Proof.
  intros Hb.
  destruct (Z.eq_dec (sentenceNum g) 1) as [E1|E1].
  { rewrite !(reassemble_first _ _ _ _ g _ E1). simpl.
    by rewrite !lookup_insert_eq. }
  destruct (Z_lt_dec (sentenceNum g) (totNumSentences g)) as [E2|E2];
    destruct (buffers s2 !! bufferSlot g) as [prev|] eqn:Eb.
  - rewrite !(reassemble_middle_known _ _ _ _ g _ prev E1 E2) by assumption.
    simpl. by rewrite !lookup_insert_eq.
  - rewrite !(reassemble_middle_unknown _ _ _ _ g _ E1 E2) by assumption.
    simpl. by rewrite Hb, Eb.
  - rewrite !(reassemble_final_known _ _ _ _ g _ prev E1 E2) by assumption.
    destruct (finish_effect isChecksumValid checksumStr pyfloat cfg g (prev ++ [newPacket g]))
      as (news & o & Hf & _).
    rewrite !Hf. simpl. by rewrite !lookup_delete_eq.
  - rewrite !(reassemble_final_unknown _ _ _ _ g _ E1 E2) by assumption.
    simpl. by rewrite Hb, Eb.
Qed.

(** X6: fragments of different slots do not disturb each other: what
    [reassemble] returns for a fragment, and the buffer it leaves in its
    slot, are the same whether or not a fragment of another slot was
    processed just before. *)
Theorem slots_are_independent (f g : Fragment) (st : Engine) :
  bufferSlot f <> bufferSlot g ->
  (reassemble g (reassemble f st).1).2 = (reassemble g st).2
  /\ buffers (reassemble g (reassemble f st).1).1 !! bufferSlot g
     = buffers (reassemble g st).1 !! bufferSlot g.
Proof.
  intros Hne. apply reassemble_local. apply reassemble_frame. congruence.
Qed.

Lemma timestamp_pair_unparsable f part :
  pyfloat (f_timestamp f) = None ->
  f_tagblock f !! "tagblock_timestamp" ≫= pyfloat = None ->
  timestamp_pair pyfloat cfg f part
  = if allow_missing_timestamps cfg then Some (0%Q, 0%Q) else None.
Proof.
  intros H1 H2. unfold timestamp_pair. rewrite H1, H2.
  destruct (pyfloat (p_timestamp part));
    destruct (p_tagblock part !! "tagblock_timestamp" ≫= pyfloat); reflexivity.
Qed.

(** X8: when the final fragment has no numeric timestamp, neither in its
    last field nor in its tagblock, and missing timestamps are not allowed,
    the whole message is dropped: [MissingTimestamps] is signaled once,
    nothing is returned and the buffer of the slot is gone. *)
Theorem unparsable_timestamp_drops_message (f : Fragment) (st : Engine)
    (prev : list Packet) :
  sentenceNum f <> 1 -> ~ sentenceNum f < totNumSentences f ->
  buffers st !! bufferSlot f = Some prev ->
  pyfloat (f_timestamp f) = None ->
  f_tagblock f !! "tagblock_timestamp" ≫= pyfloat = None ->
  allow_missing_timestamps cfg = false ->
  reassemble f st
  = (with_handled
       [MissingTimestampsError (Py.strip (f_line f)) (prev ++ [newPacket f])]
       (with_buffers (delete (bufferSlot f) (buffers st)) st),
     Return None).
Proof.
  intros E1 E2 Eb H1 H2 Ha.
  rewrite (reassemble_final_known _ _ _ _ f st prev E1 E2 Eb).
  unfold finish, mbind, M_bind.
  destruct (prev ++ [newPacket f]) as [|p parts] eqn:Ep.
  { apply app_eq_nil in Ep as [_ ?]. discriminate. }
  simpl. rewrite (timestamp_pair_unparsable f p H1 H2), Ha. reflexivity.
Qed.

Lemma sanity_check_sentinel f parts todo t st :
  pyfloat (f_timestamp f) = None ->
  f_tagblock f !! "tagblock_timestamp" ≫= pyfloat = None ->
  allow_missing_timestamps cfg = true ->
  (0 <= window cfg)%Q ->
  sanity_check pyfloat cfg f parts todo t st
  = (st, Return (Accepted (match todo with [] => t | _ => Some 0%Q end))).
Proof.
  intros H1 H2 Ha Hw. revert t. induction todo as [|p todo IH]; intros t; simpl.
  - reflexivity.
  - rewrite (timestamp_pair_unparsable f p H1 H2), Ha.
    assert (Hin : out_of_window cfg 0 0 = false).
    { apply in_window_iff. apply Qabs_Qle_condition. split; lra. }
    rewrite Hin, IH. destruct todo; reflexivity.
Qed.

(** X9: in the same situation with missing timestamps allowed and a window
    that is not negative, every part passes as the pair (0, 0), the message
    is synthesized with [ts1 = 0], and the sentence is built without the
    last field of the final fragment. *)
Theorem unparsable_timestamp_allowed (f : Fragment) (st : Engine)
    (prev : list Packet) :
  sentenceNum f <> 1 -> ~ sentenceNum f < totNumSentences f ->
  buffers st !! bufferSlot f = Some prev ->
  pyfloat (f_timestamp f) = None ->
  f_tagblock f !! "tagblock_timestamp" ≫= pyfloat = None ->
  allow_missing_timestamps cfg = true ->
  (0 <= window cfg)%Q ->
  reassemble f st
  = synthesize isChecksumValid checksumStr f (prev ++ [newPacket f]) (Some 0%Q)
      (with_buffers (delete (bufferSlot f) (buffers st)) st)
  /\ forall cs,
       out_str checksumStr (f_fields f) cs (Some 0%Q)
       = cs +:+ checksumStr cs
         +:+ match Py.slice_from_to_last 7 (f_fields f) with
             | [] => ""
             | rest => "," +:+ Py.join "," rest
             end.
Proof.
  intros E1 E2 Eb H1 H2 Ha Hw. split.
  - rewrite (reassemble_final_known _ _ _ _ f st prev E1 E2 Eb).
    unfold finish, mbind, M_bind.
    rewrite (sanity_check_sentinel f _ _ None _ H1 H2 Ha Hw).
    destruct (prev ++ [newPacket f]) eqn:Ep; [|reflexivity].
    apply app_eq_nil in Ep as [_ ?]. discriminate.
  - intros cs. unfold out_str. simpl.
    destruct (Py.slice_from_to_last 7 (f_fields f)); simpl.
    + by rewrite str_app_nil_r.
    + by rewrite str_app_assoc.
Qed.

Lemma parse_line_done line st st' m :
  parse_line line st = (st', Return (Done (Some m))) ->
  m = ((parseTagBlock line).1, Py.strip (parseTagBlock line).2 +:+ LF, line).
Proof.
  intros H. unfold parse_line in H.
  destruct (parseTagBlock line) as [tagblock line0].
  unfold_m_in H.
  repeat (split_match H; cbn in H; try discriminate);
    inversion H; subst; clear H; reflexivity.
Qed.

(** X10: a message returned by [normalize] is either the line itself, passed
    through with its tagblock and with the buffers untouched, or a message
    built from the whole buffer of one slot followed by the packet of this
    line, in arrival order, in which case that buffer is taken out. *)
Theorem normalize_message_origin (line : string) (st st' : Engine) (m : Message) :
  normalize line st = (st', Return (Some m)) ->
  (buffers st' = buffers st
   /\ m = ((parseTagBlock line).1, Py.strip (parseTagBlock line).2 +:+ LF, line))
  \/ (exists slot prev pkt out,
        buffers st !! slot = Some prev
        /\ buffers st' = delete slot (buffers st)
        /\ p_origline pkt = line
        /\ m = (merge_tagblocks (prev ++ [pkt]), Py.strip out +:+ LF,
                Py.join "" (p_origline <$> prev ++ [pkt]))).
Proof.
  rewrite normalize_after_parse.
  pose proof (parse_line_keeps parseTagBlock isChecksumValid cfg line st) as Hk.
  destruct (parse_line line st) as [st1 [[r|f]|e]] eqn:Ep; simpl in Hk; intros H.
  - inversion H; subst. left. split; [exact Hk|]. apply (parse_line_done _ _ _ _ Ep).
  - right. destruct (parse_line_multi line st st1 f Ep) as (_ & Ho & _).
    destruct (reassemble_cases f st1) as [| | | |prev E1 E2 Eb]; try discriminate.
    destruct (finish_effect isChecksumValid checksumStr pyfloat cfg f (prev ++ [newPacket f]))
      as (news & o & Hf & _ & _ & Hm).
    rewrite Hf in H. inversion H; subst.
    destruct (Hm m eq_refl) as [out ->].
    exists (bufferSlot f), prev, (newPacket f), out. simpl.
    rewrite <- Hk. auto.
  - discriminate.
Qed.

End EngineProperties.

(** ** The adapter on lines that are passed through *)

Section DecodeProperties.

Context (parseTagBlock : string -> gmap string string * string)
        (isChecksumValid : string -> bool)
        (checksumStr : string -> string)
        (pyfloat : string -> option Q)
        (decode_ais : string -> Z -> (string * string) + gmap string pyval)
        (cfg : Config).

Local Abbreviation normalize := (normalize parseTagBlock isChecksumValid checksumStr pyfloat cfg).
Local Abbreviation decode := (decode parseTagBlock isChecksumValid checksumStr pyfloat decode_ais cfg).

Lemma normalize_short_line origline tagblock l st :
  parseTagBlock origline = (tagblock, l) ->
  (String.length (Py.strip l) < 6)%nat ->
  normalize origline st = (st, Return (Some (tagblock, Py.strip l +:+ LF, origline))).
Proof.
  intros Hp Hlen. unfold normalize, parse_line. unfold mbind at 1. unfold M_bind at 1.
  rewrite Hp.
  assert (Hs : (String.length (Py.strip l +:+ LF) <? 7)%nat = true).
  { apply Nat.ltb_lt. rewrite str_length_app. change (String.length LF) with 1%nat. lia. }
  rewrite Hs. reflexivity.
Qed.

Lemma decode_on_message line st st' tagblock sentence origline :
  normalize line st = (st', Return (Some (tagblock, sentence, origline))) ->
  decode line st
  = match Py.split "," sentence !! 5%nat with
    | None => (st', Raise IndexError)
    | Some body =>
        match last_char (hd "" (Py.split "*" sentence)) with
        | None => (st', Raise IndexError)
        | Some padc =>
            match Py.int padc with
            | None => (st', Raise ValueError)
            | Some pad =>
                match decode_ais body pad with
                | inl (error_type, error) =>
                    (with_handled [DecodeError (Py.strip origline) error_type error] st',
                     Return None)
                | inr res =>
                    (st', Return (Some (build_record (keep_nmea cfg) res tagblock origline)))
                end
            end
        end
    end.
Proof.
  intros Hn. unfold decode. unfold mbind at 1. unfold M_bind at 1. rewrite Hn.
  unfold index, or_raise. unfold_m.
  destruct (Py.split "," sentence !! 5%nat) as [body|]; [|reflexivity].
  destruct (last_char (hd "" (Py.split "*" sentence))) as [padc|]; [|reflexivity].
  destruct (Py.int padc) as [pad|]; [|reflexivity].
  destruct (decode_ais body pad) as [[ty err]|res]; reflexivity.
Qed.

(** X11: a line whose sentence, once stripped, has fewer than six
    characters goes through the engine unchecked and then makes [decode]
    raise before the decoder is called: [IndexError] for the missing
    payload field, or [ValueError] for the fill bits, and nothing reaches
    the handler. *)
Theorem decode_raises_on_short_line (origline : string)
    (tagblock : gmap string string) (l : string) (st : Engine) :
  parseTagBlock origline = (tagblock, l) ->
  (String.length (Py.strip l) < 6)%nat ->
  decode origline st = (st, Raise IndexError)
  \/ decode origline st = (st, Raise ValueError).
Proof.
  intros Hp Hlen.
  rewrite (decode_on_message _ _ _ _ _ _ (normalize_short_line origline tagblock l st Hp Hlen)).
  revert Hlen. generalize (Py.strip l). intros s0 Hlen.
  destruct s0 as [|c1 [|c2 [|c3 [|c4 [|c5 [|c6 s]]]]]];
    [| | | | | |simpl in Hlen; lia]; clear Hlen.
  all: rewrite ?str_app_cons; change ("" +:+ LF) with LF; unfold LF; simpl Py.split.
  all: repeat match goal with
         | |- context [Ascii.eqb ?c ","] =>
             let E := fresh "E" in destruct (Ascii.eqb c ",") eqn:E
         end.
  all: try (left; reflexivity).
  all: repeat match goal with
         | E : Ascii.eqb _ "," = true |- _ => apply Ascii.eqb_eq in E; subst
         end.
  all: right; reflexivity.
Qed.

End DecodeProperties.

(** ** Keys of the merged tagblock and of the record *)

(** X12: the merged tagblock has exactly the keys of the parts: merging
    loses no key and invents none. *)
Theorem merge_tagblocks_keys (parts : list Packet) (k : string) :
  is_Some (merge_tagblocks parts !! k)
  <-> exists p, p ∈ parts /\ is_Some (p_tagblock p !! k).
Proof.
  induction parts as [|p parts IH].
  - unfold merge_tagblocks. simpl. rewrite lookup_empty. split.
    + intros [? ?]. discriminate.
    + intros (p & Hp & _). inversion Hp.
  - rewrite merge_tagblocks_cons, lookup_union_is_Some, IH. split.
    + intros [H|(q & Hq & H)].
      * exists p. split; [left | exact H].
      * exists q. split; [by right | exact H].
    + intros (q & Hq & H). apply elem_of_cons in Hq as [->|Hq]; [by left|].
      right. eauto.
Qed.

(** X13: the record returned by [decode] has the keys of the decoded
    fields, those of the tagblock and, under [keep_nmea], ["nmea"]; a
    decoded field that the tagblock does not define keeps its decoded value
    (but for ["nmea"] under [keep_nmea]). *)
Theorem build_record_keys (keep : bool) (res : gmap string pyval)
    (tagblock : gmap string string) (origline : string) (k : string) :
  (is_Some (build_record keep res tagblock origline !! k)
   <-> is_Some (res !! k) \/ is_Some (tagblock !! k) \/ (keep = true /\ k = "nmea"))
  /\ (tagblock !! k = None -> keep = false \/ k <> "nmea" ->
      build_record keep res tagblock origline !! k = res !! k).
Proof.
  unfold build_record, dict_update. split.
  - destruct keep.
    + rewrite lookup_insert. case_decide as Hk.
      * subst k. split; [intros _; right; right; auto | intros _; eauto].
      * rewrite lookup_union_is_Some, lookup_fmap, fmap_is_Some. split.
        -- intros [H|H]; auto.
        -- intros [H|[H|[_ H]]]; auto. congruence.
    + rewrite lookup_union_is_Some, lookup_fmap, fmap_is_Some. split.
      * intros [H|H]; auto.
      * intros [H|[H|[H _]]]; auto. discriminate.
  - intros Ht Hk.
    assert (Hu : ((PStr <$> tagblock) ∪ res) !! k = res !! k).
    { apply lookup_union_r. rewrite lookup_fmap, Ht. reflexivity. }
    destruct keep; [|exact Hu].
    destruct Hk as [|Hk]; [discriminate|].
    rewrite lookup_insert_ne by congruence. exact Hu.
Qed.

(** ** Lines that give nothing *)

Section ErrorPaths.

Context (parseTagBlock : string -> gmap string string * string)
        (isChecksumValid : string -> bool)
        (checksumStr : string -> string)
        (pyfloat : string -> option Q)
        (decode_ais : string -> Z -> (string * string) + gmap string pyval)
        (cfg : Config).

Local Abbreviation parse_line := (parse_line parseTagBlock isChecksumValid cfg).
Local Abbreviation normalize := (normalize parseTagBlock isChecksumValid checksumStr pyfloat cfg).
Local Abbreviation decode := (decode parseTagBlock isChecksumValid checksumStr pyfloat decode_ais cfg).

(** X14: with checksum validation on and invalid checksums not passed, an
    AIS sentence whose checksum is wrong gives nothing, signals
    [InvalidChecksum] once and leaves the buffers alone, whatever its
    fragment fields say. *)
Theorem invalid_checksum_drops_line (origline : string)
    (tagblock : gmap string string) (l : string) (st : Engine) :
  parseTagBlock origline = (tagblock, l) ->
  (String.length (Py.strip l +:+ LF) <? 7)%nat || not_vdm_vdo (Py.strip l +:+ LF) = false ->
  validate_checksum cfg = true ->
  isChecksumValid (Py.strip l +:+ LF) = false ->
  pass_invalid_checksums cfg = false ->
  normalize origline st
  = (with_handled [InvalidChecksumError (Py.strip (Py.strip l +:+ LF))] st, Return None).
Proof.
  intros Hp Hais Hv Hbad Hpass.
  rewrite (normalize_after_parse parseTagBlock isChecksumValid checksumStr pyfloat cfg).
  unfold parse_line. rewrite Hp, Hais. unfold_m.
  rewrite Hv, Hbad, Hpass. reflexivity.
Qed.

(** X15: a final fragment whose slot has no buffer gives nothing and
    signals [OnlyMessageEnd] with the line and the slot; the buffers stay as
    they were. *)
Theorem end_without_start (line : string) (f : Fragment) (st st1 : Engine) :
  parse_line line st = (st1, Return (Multi f)) ->
  sentenceNum f <> 1 -> ~ sentenceNum f < totNumSentences f ->
  buffers st !! bufferSlot f = None ->
  normalize line st
  = (with_handled [OnlyMessageEndError (f_line f) (bufferSlot f)] st1, Return None)
  /\ buffers st1 = buffers st.
Proof.
  intros Hp E1 E2 Eb.
  pose proof (parse_line_keeps parseTagBlock isChecksumValid cfg line st) as Hk.
  rewrite Hp in Hk. simpl in Hk. split; [|exact Hk].
  rewrite (normalize_after_parse parseTagBlock isChecksumValid checksumStr pyfloat cfg), Hp.
  apply reassemble_final_unknown; [exact E1 | exact E2 | by rewrite Hk].
Qed.

(** X16: [decode] does to the buffers what [normalize] does, and hands the
    handler at most one condition more than [normalize], a [DecodeError]. *)
Theorem decode_adds_one_condition (line : string) (st : Engine) :
  buffers (decode line st).1 = buffers (normalize line st).1
  /\ (handled (decode line st).1 = handled (normalize line st).1
      \/ exists origline error_type error,
           handled (decode line st).1
           = handled (normalize line st).1
             ++ [DecodeError origline error_type error]).
Proof.
  destruct (normalize line st) as [st' [[[[tb sentence] o]|]|e]] eqn:Hn.
  - rewrite (decode_on_message _ _ _ _ decode_ais cfg _ _ _ _ _ _ Hn). simpl.
    destruct (Py.split "," sentence !! 5%nat) as [body|]; [|split; [|left]; reflexivity].
    destruct (last_char (hd "" (Py.split "*" sentence))) as [padc|];
      [|split; [|left]; reflexivity].
    destruct (Py.int padc) as [pad|]; [|split; [|left]; reflexivity].
    destruct (decode_ais body pad) as [[ty err]|res]; simpl.
    + split; [reflexivity|]. right. eexists _, _, _. reflexivity.
    + split; [|left]; reflexivity.
  - unfold decode, mbind, M_bind. rewrite Hn. split; [|left]; reflexivity.
  - unfold decode, mbind, M_bind. rewrite Hn. split; [|left]; reflexivity.
Qed.

End ErrorPaths.

(** ** The station field *)

Lemma find_rev_snoc {A} (P : A -> bool) (l : list A) (x : A) :
  find P (rev (l ++ [x])) = if P x then Some x else find P (rev l).
Proof. rewrite rev_unit. reflexivity. Qed.

Lemma find_rev_last {A} (P : A -> bool) (l : list A) (s : A) :
  find P (rev l) = Some s
  <-> exists i, l !! i = Some s /\ P s = true
                /\ forall j x, (i < j)%nat -> l !! j = Some x -> P x = false.
Proof.
  induction l as [|x l IH] using rev_ind.
  - simpl. split; [discriminate|]. intros (i & Hi & _). discriminate.
  - rewrite find_rev_snoc. destruct (P x) eqn:Px.
    + split.
      * intros [= <-]. exists (length l). split; [|split; [exact Px|]].
        -- rewrite lookup_app_r by lia. by rewrite Nat.sub_diag.
        -- intros j y Hj Hy. apply lookup_lt_Some in Hy.
           rewrite length_app in Hy. simpl in Hy. lia.
      * intros (i & Hi & Ps & Hlast).
        destruct (decide (i = length l)) as [->|Hne].
        -- rewrite lookup_app_r in Hi by lia. rewrite Nat.sub_diag in Hi.
           simpl in Hi. congruence.
        -- assert (i < length l)%nat.
           { apply lookup_lt_Some in Hi. rewrite length_app in Hi. simpl in Hi. lia. }
           rewrite (Hlast (length l) x) in Px; [discriminate | lia |].
           rewrite lookup_app_r by lia. by rewrite Nat.sub_diag.
    + rewrite IH. split.
      * intros (i & Hi & Ps & Hlast). exists i.
        split; [by apply lookup_app_l_Some|]. split; [exact Ps|].
        intros j y Hj Hy.
        destruct (decide (j < length l)%nat) as [Hlt|Hge].
        -- rewrite lookup_app_l in Hy by exact Hlt. apply (Hlast j y Hj Hy).
        -- rewrite lookup_app_r in Hy by lia.
           destruct (j - length l)%nat; simpl in Hy; [|discriminate]. congruence.
      * intros (i & Hi & Ps & Hlast).
        assert (Hlt : (i < length l)%nat).
        { destruct (decide (i < length l)%nat) as [|Hge]; [assumption|].
          rewrite lookup_app_r in Hi by lia.
          destruct (i - length l)%nat; simpl in Hi; [|discriminate]. congruence. }
        exists i. rewrite lookup_app_l in Hi by exact Hlt.
        split; [exact Hi|]. split; [exact Ps|].
        intros j y Hj Hy. apply (Hlast j y Hj). by apply lookup_app_l_Some.
Qed.

(** X17: the station of a sentence is the last field, from index 6 on,
    that starts with [r] or [b]; the first six fields are never looked
    at. *)
Theorem find_station_is_last_trailing (fields : list string) (s : string) :
  find_station fields = Some s
  <-> exists i, (6 <= i)%nat /\ fields !! i = Some s /\ is_station s = true
                /\ forall j x, (i < j)%nat -> fields !! j = Some x ->
                               is_station x = false.
Proof.
  unfold find_station, Py.rslice_down_to. rewrite find_rev_last. split.
  - intros (i & Hi & Ps & Hlast). exists (6 + i)%nat.
    rewrite lookup_drop in Hi. split; [lia|]. split; [exact Hi|]. split; [exact Ps|].
    intros j x Hj Hx. apply (Hlast (j - 6)%nat x); [lia|].
    rewrite lookup_drop. replace (6 + (j - 6))%nat with j by lia. exact Hx.
  - intros (i & H6 & Hi & Ps & Hlast). exists (i - 6)%nat.
    rewrite lookup_drop. replace (6 + (i - 6))%nat with i by lia.
    split; [exact Hi|]. split; [exact Ps|].
    intros j x Hj Hx. rewrite lookup_drop in Hx.
    apply (Hlast (6 + j)%nat x); [lia | exact Hx].
Qed.

(** ** The further properties on the sample sentences *)

Lemma final_fragment_consumes_buffer_witness :
  buffers (reassemble Codec.validate Codec.checksumStr Codec.float_int default_config
             frag_b2 engine_b1).1
  = delete (bufferSlot frag_b2) (buffers engine_b1).
Proof.
  apply (final_fragment_consumes_buffer Codec.validate Codec.checksumStr
           Codec.float_int default_config frag_b2 engine_b1 [newPacket frag_b1]).
  - discriminate.
  - vm_compute. intros H; discriminate H.
  - reflexivity.
Defined.

Lemma normalize_raise_and_buffers_witness :
  exists slot prev,
    buffers engine_u1 !! slot = Some prev
    /\ buffers empty_engine = delete slot (buffers engine_u1).
Proof.
  apply (normalize_raise_and_buffers Codec.parse Codec.validate Codec.checksumStr
           Codec.float_int config_lenient line_s2 engine_u1 empty_engine IndexError).
  - vm_compute. reflexivity.
  - reflexivity.
Defined.

Lemma slots_are_independent_witness :
  (reassemble Codec.validate Codec.checksumStr Codec.float_int default_config frag_b2
     (reassemble Codec.validate Codec.checksumStr Codec.float_int default_config
        frag_c1 engine_b1).1).2
  = (reassemble Codec.validate Codec.checksumStr Codec.float_int default_config
       frag_b2 engine_b1).2.
Proof.
  apply (slots_are_independent Codec.validate Codec.checksumStr Codec.float_int
           default_config frag_c1 frag_b2 engine_b1).
  discriminate.
Defined.

Lemma unparsable_timestamp_drops_message_witness :
  reassemble Codec.validate Codec.checksumStr Codec.float_int config_unknown
    frag_u2 engine_u1
  = (with_handled
       [MissingTimestampsError "!AIVDM,2,2,6,A,BBB,2*50"
          [newPacket frag_u1; newPacket frag_u2]]
       empty_engine,
     Return None).
Proof.
  apply (unparsable_timestamp_drops_message Codec.validate Codec.checksumStr
           Codec.float_int config_unknown frag_u2 engine_u1 [newPacket frag_u1]).
  - discriminate.
  - vm_compute. intros H; discriminate H.
  - reflexivity.
  - reflexivity.
  - reflexivity.
  - reflexivity.
Defined.

Lemma unparsable_timestamp_allowed_witness :
  reassemble Codec.validate Codec.checksumStr Codec.float_int config_lenient
    frag_u2 engine_u1
  = (empty_engine,
     Return (Some (∅, "!AIVDM,1,1,6,A,AAABBB,2*11" +:+ LF, line_u1 +:+ line_u2))).
Proof.
  destruct (unparsable_timestamp_allowed Codec.validate Codec.checksumStr
              Codec.float_int config_lenient frag_u2 engine_u1 [newPacket frag_u1])
    as [H _].
  - discriminate.
  - vm_compute. intros H; discriminate H.
  - reflexivity.
  - reflexivity.
  - reflexivity.
  - reflexivity.
  - vm_compute. discriminate.
  - rewrite H. reflexivity.
Defined.

Lemma normalize_message_origin_witness :
  (buffers empty_engine = buffers engine_b1
   /\ (∅, "!AIVDM,1,1,6,A,CCCBBB,2*13,rX,102" +:+ LF, line_b1 +:+ line_b2)
      = ((Codec.parse line_b2).1, Py.strip (Codec.parse line_b2).2 +:+ LF, line_b2))
  \/ (exists slot prev pkt out,
        buffers engine_b1 !! slot = Some prev
        /\ buffers empty_engine = delete slot (buffers engine_b1)
        /\ p_origline pkt = line_b2
        /\ (∅, "!AIVDM,1,1,6,A,CCCBBB,2*13,rX,102" +:+ LF, line_b1 +:+ line_b2)
           = (merge_tagblocks (prev ++ [pkt]), Py.strip out +:+ LF,
              Py.join "" (p_origline <$> prev ++ [pkt]))).
Proof.
  apply (normalize_message_origin Codec.parse Codec.validate Codec.checksumStr
           Codec.float_int default_config line_b2 engine_b1 empty_engine).
  vm_compute. reflexivity.
Defined.

Lemma decode_raises_on_short_line_witness :
  decode_ref decoder_station default_config "" empty_engine
  = (empty_engine, Raise IndexError)
  \/ decode_ref decoder_station default_config "" empty_engine
     = (empty_engine, Raise ValueError).
Proof.
  apply (decode_raises_on_short_line Codec.parse Codec.validate Codec.checksumStr
           Codec.float_int decoder_station default_config "" ∅ "").
  - reflexivity.
  - simpl. lia.
Defined.

Lemma build_record_keys_witness :
  build_record false {[ "id" := PInt 1; "s" := PInt 9 ]} {[ "s" := "rX" ]} line_tagged
    !! "id" = Some (PInt 1).
Proof.
  destruct (build_record_keys false {[ "id" := PInt 1; "s" := PInt 9 ]} {[ "s" := "rX" ]}
              line_tagged "id") as [_ H].
  rewrite H.
  - reflexivity.
  - reflexivity.
  - left. reflexivity.
Defined.

Lemma invalid_checksum_drops_line_witness :
  normalize_ref default_config line_bad_checksum empty_engine
  = (with_handled [InvalidChecksumError "!AIVDM,1,1,,A,P,0*00"] empty_engine, Return None).
Proof.
  apply (invalid_checksum_drops_line Codec.parse Codec.validate Codec.checksumStr
           Codec.float_int default_config line_bad_checksum ∅ line_bad_checksum
           empty_engine); reflexivity.
Defined.

Lemma end_without_start_witness :
  normalize_ref default_config line_z2 empty_engine
  = (with_handled
       [OnlyMessageEndError line_z2 [None; Some "rX"; Some "6"; Some "A"]] empty_engine,
     Return None)
  /\ buffers empty_engine = buffers empty_engine.
Proof.
  apply (end_without_start Codec.parse Codec.validate Codec.checksumStr
           Codec.float_int default_config line_z2 frag_z2 empty_engine empty_engine).
  - reflexivity.
  - discriminate.
  - vm_compute. intros H; discriminate H.
  - reflexivity.
Defined.

(** ** The slot of a parsed fragment *)

Section SlotShape.

Context (parseTagBlock : string -> gmap string string * string)
        (isChecksumValid : string -> bool)
        (checksumStr : string -> string)
        (cfg : Config).

Local Abbreviation parse_line := (parse_line parseTagBlock isChecksumValid cfg).

Ltac split_match H :=
  match type of H with
  | context [ if ?b then _ else _ ] => destruct b eqn:?
  | context [ match ?o with Some _ => _ | None => _ end ] => destruct o eqn:?
  | context [ let (_, _) := ?p in _ ] => destruct p eqn:?
  end.

Lemma parse_line_slot line st st' f :
  parse_line line st = (st', Return (Multi f)) ->
  exists tagblock_station station seq channel,
    f_fields f !! 3%nat = Some seq /\ f_fields f !! 4%nat = Some channel
    /\ bufferSlot f
       = [tagblock_station; station; Some seq]
         ++ (if treat_ab_equal cfg then [] else [Some channel]).
Proof.
  intros H. unfold parse_line in H.
  destruct (parseTagBlock line) as [tagblock line0].
  unfold_m_in H.
  repeat (split_match H; cbn in H; try discriminate);
    inversion H; subst; clear H; cbn.
  all: eexists _, _, _, _; split; [eassumption|]; split; [eassumption|]; reflexivity.
Qed.

(** X18: the channel field is part of the slot exactly when
    [treat_ab_equal] is off: then two fragments on different channels never
    share a slot; with [treat_ab_equal] on, two fragments share their slot as
    soon as they agree on the stations and the sequence field. *)
Theorem channel_and_slot (la lb : string) (fa fb : Fragment)
    (sa sa' sb sb' : Engine) (ca cb : string) :
  parse_line la sa = (sa', Return (Multi fa)) ->
  parse_line lb sb = (sb', Return (Multi fb)) ->
  f_fields fa !! 4%nat = Some ca -> f_fields fb !! 4%nat = Some cb ->
  (treat_ab_equal cfg = false -> ca <> cb -> bufferSlot fa <> bufferSlot fb)
  /\ (treat_ab_equal cfg = true ->
      take 3 (bufferSlot fa) = take 3 (bufferSlot fb) ->
      bufferSlot fa = bufferSlot fb).
Proof.
  intros Ha Hb Hca Hcb.
  destruct (parse_line_slot la sa sa' fa Ha) as (ta & na & qa & ca' & _ & Hca' & Sa).
  destruct (parse_line_slot lb sb sb' fb Hb) as (tb & nb & qb & cb' & _ & Hcb' & Sb).
  rewrite Hca in Hca'. rewrite Hcb in Hcb'. inversion Hca'; inversion Hcb'; subst ca' cb'.
  rewrite Sa, Sb. split; intros Ht; rewrite Ht; simpl.
  - intros Hne E. inversion E. congruence.
  - intros E. exact E.
Qed.

(** X19: when the final fragment has exactly seven fields and [ts1] is not
    zero, nothing follows the checksum but the separator: the sentence
    handed back is built from a text that ends with a comma. *)
Theorem seven_fields_leave_a_comma (f : Fragment) (parts : list Packet)
    (ts1 : option Q) (st : Engine) (f0 f1 f2 f3 f4 f5 f6 : string) :
  f_fields f = [f0; f1; f2; f3; f4; f5; f6] -> is_zero ts1 = false ->
  let cs := checksumed_str f0 f3 f4 (Py.join "" (p_payload <$> parts)) f6 in
  exists news,
    synthesize isChecksumValid checksumStr f parts ts1 st
    = (with_handled news st,
       Return (Some (merge_tagblocks parts,
                     Py.strip (cs +:+ checksumStr cs +:+ ",") +:+ LF,
                     Py.join "" (p_origline <$> parts)))).
Proof.
  intros Hf Hz cs.
  rewrite (synthesize_returns isChecksumValid checksumStr f parts ts1 st f0 f3 f4 f6)
    by (rewrite Hf; reflexivity).
  cbv zeta. fold cs.
  assert (Ho : out_str checksumStr (f_fields f) cs ts1 = cs +:+ checksumStr cs +:+ ",").
  { unfold out_str. rewrite Hz, Hf. reflexivity. }
  rewrite Ho.
  destruct (isChecksumValid _).
  - exists []. rewrite with_handled_nil. reflexivity.
  - eexists. reflexivity.
Qed.

End SlotShape.

Lemma channel_and_slot_witness :
  bufferSlot frag_b1 <> bufferSlot frag_c1.
Proof.
  destruct (channel_and_slot Codec.parse Codec.validate default_config
              line_b1 line_c1 frag_b1 frag_c1 empty_engine empty_engine
              empty_engine empty_engine "A" "B") as [H _].
  - reflexivity.
  - reflexivity.
  - reflexivity.
  - reflexivity.
  - apply H; [reflexivity | discriminate].
Defined.

Lemma seven_fields_leave_a_comma_witness :
  exists news,
    synthesize Codec.validate Codec.checksumStr frag_u2
      [newPacket frag_u1; newPacket frag_u2] (Some 5%Q) empty_engine
    = (with_handled news empty_engine,
       Return (Some (∅, "!AIVDM,1,1,6,A,AAABBB,2*11," +:+ LF, line_u1 +:+ line_u2))).
Proof.
  apply (seven_fields_leave_a_comma Codec.validate Codec.checksumStr frag_u2
           [newPacket frag_u1; newPacket frag_u2] (Some 5%Q) empty_engine
           "!AIVDM" "2" "2" "6" "A" "BBB" ("2*50" +:+ LF)).
  - reflexivity.
  - reflexivity.
Defined.
